(** * Medi_Predict front end: a shallow embedding of the React components

  Each component is a state record with one function per event handler.
  An asynchronous handler is one step, taken when the request it awaits
  settles: it takes the outcome of the request as an argument and returns
  the next state together with the effects it performed (requests sent,
  socket emissions, parent callbacks), in program order.  Where a handler
  reads its closure after the [await] next to a functional update
  [prev => ...], the render it closes over is a separate argument. *)

From Stdlib Require Import ZArith NArith Ascii String Floats.SpecFloat.
From stdpp Require Import base option list gmap.

Open Scope Z_scope.

(** ** JavaScript values used by the components *)

Module JS.

(** A string is its sequence of UTF-16 code units. *)
Abbreviation jsstring := (list N).

Definition lit (s : string) : jsstring :=
  map N_of_ascii (list_ascii_of_string s).

(** [WhiteSpace] and [LineTerminator] of ECMAScript; all of them lie in
    the basic plane, so the test is on one code unit. *)
Definition isWhiteSpace (c : N) : bool :=
  match c with
  | 9 | 10 | 11 | 12 | 13 | 32 | 160 => true
  | 5760 | 8232 | 8233 | 8239 | 8287 | 12288 | 65279 => true
  | _ => (8192 <=? c)%N && (c <=? 8202)%N
  end%N.

Fixpoint dropWhile {A} (p : A -> bool) (l : list A) : list A :=
  match l with
  | [] => []
  | x :: l' => if p x then dropWhile p l' else l
  end.

Definition trimStart (s : jsstring) : jsstring := dropWhile isWhiteSpace s.
Definition trimEnd (s : jsstring) : jsstring :=
  rev (dropWhile isWhiteSpace (rev s)).
(** [String.prototype.trim] *)
Definition trim (s : jsstring) : jsstring := trimEnd (trimStart s).

(** [ToBoolean] on a string: only the empty string is falsy. *)
Definition truthy_string (s : jsstring) : bool :=
  match s with [] => false | _ => true end.

(** Identifiers and flags decoded from JSON: integers stand for the
    numbers (JSON carries no NaN, and [-0 === 0]). *)
Inductive value :=
| VUndefined
| VNull
| VBool (b : bool)
| VNum (n : Z)
| VStr (s : jsstring).

#[global] Instance value_eq_dec : EqDecision value.
Proof. solve_decision. Defined.

(** [x === y] *)
Definition strict_eq (x y : value) : bool := bool_decide (x = y).
(** [x !== y] *)
Definition strict_ne (x y : value) : bool := negb (strict_eq x y).

(** [ToBoolean] *)
Definition truthy (v : value) : bool :=
  match v with
  | VUndefined | VNull => false
  | VBool b => b
  | VNum n => negb (n =? 0)
  | VStr s => truthy_string s
  end.

(** The decimal digits of a natural number, as code units. *)
Fixpoint uint_units (d : Decimal.uint) : jsstring :=
  match d with
  | Decimal.Nil => []
  | Decimal.D0 d => 48%N :: uint_units d
  | Decimal.D1 d => 49%N :: uint_units d
  | Decimal.D2 d => 50%N :: uint_units d
  | Decimal.D3 d => 51%N :: uint_units d
  | Decimal.D4 d => 52%N :: uint_units d
  | Decimal.D5 d => 53%N :: uint_units d
  | Decimal.D6 d => 54%N :: uint_units d
  | Decimal.D7 d => 55%N :: uint_units d
  | Decimal.D8 d => 56%N :: uint_units d
  | Decimal.D9 d => 57%N :: uint_units d
  end.

(** [ToString] of an integer below [10 ^ 21]. *)
Definition decimal (n : Z) : jsstring :=
  match Z.to_int n with
  | Decimal.Pos d => uint_units d
  | Decimal.Neg d => 45%N :: uint_units d
  end.

(** The result of awaiting a request: the promise resolves with a
    response object, or it rejects (or reading the response throws), which
    lands in the handler's [catch]. *)
Inductive outcome (A : Type) :=
| Resolved (a : A)
| Rejected.
Arguments Resolved {A} a.
Arguments Rejected {A}.

(** *** Numbers

    A Number is an IEEE 754 binary64 value, in the representation of the
    Standard Library's specification of floating point ([prec = 53],
    [emax = 1024]). *)

Abbreviation number := spec_float.

Definition NaN : number := S754_nan.
Definition pos_zero : number := S754_zero false.

Definition is_NaN (x : number) : bool :=
  match x with S754_nan => true | _ => false end.

Definition is_finite (x : number) : bool :=
  match x with S754_zero _ | S754_finite _ _ _ => true | _ => false end.

(** [ToBoolean] on a Number: [NaN], [+0] and [-0] are falsy. *)
Definition truthy_number (x : number) : bool :=
  match x with S754_nan | S754_zero _ => false | _ => true end.

(** The Number nearest to [p / q] (ties to even), negated when [neg];
    [0 <= p] and [0 < q].  The quotient is taken with 1100 fractional bits,
    below the least binary64 exponent, and the remainder gives the position
    of the exact value between two such quotients. *)
Definition round_ratio (neg : bool) (p q : Z) : number :=
  let n := p * 2 ^ 1100 in
  let r := n mod q in
  let loc := if r =? 0 then loc_Exact else loc_Inexact (2 * r ?= q) in
  binary_round_aux 53 1024 neg (n / q) (-1100) loc.

Definition of_Z (n : Z) : number := binary_normalize 53 1024 n 0 false.

Definition mul (x y : number) : number := SFmul 53 1024 x y.
Definition add (x y : number) : number := SFadd 53 1024 x y.
Definition sub (x y : number) : number := SFsub 53 1024 x y.

(** [Math.floor] *)
Definition floor (x : number) : number :=
  match x with
  | S754_finite s m e =>
      if 0 <=? e then x
      else of_Z ((if s then Z.neg m else Z.pos m) / 2 ^ (- e))
  | _ => x
  end.

(** The array index a Number denotes as a property key, if any. *)
Definition array_index (x : number) : option nat :=
  match x with
  | S754_zero _ => Some 0%nat
  | S754_finite false m e =>
      if 0 <=? e then Some (Z.to_nat (Z.pos m * 2 ^ e))
      else if Z.pos m mod 2 ^ (- e) =? 0
           then Some (Z.to_nat (Z.pos m / 2 ^ (- e))) else None
  | _ => None
  end.

(** *** [parseFloat] *)

Definition isDigit (c : N) : bool := ((48 <=? c) && (c <=? 57))%N.

Fixpoint span {A} (p : A -> bool) (l : list A) : list A * list A :=
  match l with
  | [] => ([], [])
  | x :: l' => if p x then let '(a, b) := span p l' in (x :: a, b) else ([], l)
  end.

(** The value of a run of decimal digits. *)
Definition digitsValue (ds : list N) : Z :=
  fold_left (fun acc d => 10 * acc + (Z.of_N d - 48)) ds 0.

Fixpoint startsWith (pre s : jsstring) : bool :=
  match pre, s with
  | [], _ => true
  | c :: pre', d :: s' => (c =? d)%N && startsWith pre' s'
  | _ :: _, [] => false
  end.

(** What the longest prefix matching [StrUnsignedDecimalLiteral] denotes:
    [Infinity], or the decimal [mantissa * 10 ^ exp10]. *)
Inductive literal :=
| LitInfinity
| LitDecimal (mantissa exp10 : Z).

(** [ExponentPart] at the head of [s], when one is there: [e] or [E], an
    optional sign and at least one digit.  Without it the exponent is 0. *)
Definition exponentPart (s : jsstring) : Z :=
  match s with
  | c :: s' =>
      if ((c =? 101) || (c =? 69))%N then
        match s' with
        | 43%N :: s'' => digitsValue (fst (span isDigit s''))
        | 45%N :: s'' => - digitsValue (fst (span isDigit s''))
        | _ => digitsValue (fst (span isDigit s'))
        end
      else 0
  | [] => 0
  end.

Definition strUnsignedDecimalLiteral (s : jsstring) : option literal :=
  if startsWith (lit "Infinity") s then Some LitInfinity
  else
    let '(int, r1) := span isDigit s in
    let integer :=
      match int with
      | [] => None
      | _ => Some (LitDecimal (digitsValue int) (exponentPart r1))
      end in
    match r1 with
    | c :: r1' =>
        if (c =? 46)%N then
          let '(frac, r2) := span isDigit r1' in
          match int, frac with
          | [], [] => None
          | _, _ => Some (LitDecimal (digitsValue (int ++ frac))
                                     (exponentPart r2 - Z.of_nat (length frac)))
          end
        else integer
    | [] => integer
    end.

(** The Number value of the mathematical value [mantissa * 10 ^ exp10]. *)
Definition roundMV (neg : bool) (mantissa exp10 : Z) : number :=
  if 0 <=? exp10 then round_ratio neg (mantissa * 10 ^ exp10) 1
  else round_ratio neg mantissa (10 ^ (- exp10)).

(** The optional sign of a [StrDecimalLiteral] and what follows it. *)
Definition signedPart (t : jsstring) : bool * jsstring :=
  match t with
  | 43%N :: u => (false, u)
  | 45%N :: u => (true, u)
  | _ => (false, t)
  end.

(** [parseFloat(s)] for a string [s]: leading white space is skipped, then
    the longest prefix that is a [StrDecimalLiteral] is converted; [NaN] when
    there is none. *)
Definition parseFloat (s : jsstring) : number :=
  let '(neg, u) := signedPart (trimStart s) in
  match strUnsignedDecimalLiteral u with
  | None => NaN
  | Some LitInfinity => S754_infinity neg
  | Some (LitDecimal m e) => roundMV neg m e
  end.

(** *** [replace], [includes] and [toFixed] *)

(** [s.replace(search, replacement)] for a string [search] and a
    [replacement] without [$]: the first occurrence is replaced. *)
Fixpoint replace (search replacement s : jsstring) : jsstring :=
  if startsWith search s then replacement ++ drop (length search) s
  else match s with
       | [] => []
       | c :: s' => c :: replace search replacement s'
       end.

(** [s.includes(search)] *)
Fixpoint includes (search s : jsstring) : bool :=
  startsWith search s
  || match s with
     | [] => false
     | _ :: s' => includes search s'
     end.

(** The digits of [n / 10] to one decimal place, for a natural number [n]
    of tenths: at least two digits, a point before the last one. *)
Definition tenths (n : Z) : jsstring :=
  let m := decimal n in
  let m := if (length m <=? 1)%nat then 48%N :: m else m in
  take (length m - 1) m ++ 46%N :: drop (length m - 1) m.

(** [x.toFixed(1)].  For a finite [x] of magnitude [m * 2 ^ e] below
    [10 ^ 21], the integer nearest to [10 * m * 2 ^ e] (the larger one in a
    tie) is printed with a point before its last digit.  From [10 ^ 21] on
    the result is [ToString(x)], which is not modelled: [None]. *)
Definition toFixed1 (x : number) : option jsstring :=
  match x with
  | S754_nan => Some (lit "NaN")
  | S754_infinity s => Some ((if s then [45%N] else []) ++ lit "Infinity")
  | S754_zero _ => Some (lit "0.0")
  | S754_finite s m e =>
      let large := if 0 <=? e then 10 ^ 21 <=? Z.pos m * 2 ^ e
                   else 10 ^ 21 * 2 ^ (- e) <=? Z.pos m in
      if large then None
      else
        let n := if 0 <=? e then 10 * Z.pos m * 2 ^ e
                 else (20 * Z.pos m + 2 ^ (- e)) / 2 ^ (1 - e) in
        Some ((if s then [45%N] else []) ++ tenths n)
  end.

End JS.
Import JS.

(** ** CaseReview (the doctor's review form) *)

Module CaseReview.

Inductive severity := mild | moderate | severe | critical.

Record ReviewForm := {
  diagnosis : jsstring;
  form_severity : severity;
  recommendations : list jsstring;
  follow_up_required : bool;
  medications : list jsstring;
  lifestyle_changes : list jsstring
}.

Record State := {
  reviewForm : ReviewForm;
  loading : bool;
  error : value
}.

(** [{ success, error }] as the review endpoint answers *)
Record Response := { success : bool; resp_error : value }.

Inductive effect :=
| ReviewCase (case_id : value) (form : ReviewForm)   (* reviewCase(caseData._id, cleanedForm) *)
| OnReviewed.                                        (* onReviewed() *)

Definition initial : State :=
  {| reviewForm := {| diagnosis := []; form_severity := mild;
                      recommendations := [[]]; follow_up_required := false;
                      medications := [[]]; lifestyle_changes := [[]] |};
     loading := false; error := VStr [] |}.

(** [items.filter(r => r.trim())] *)
Definition cleaned (items : list jsstring) : list jsstring :=
  filter (fun r => Is_true (truthy_string (trim r))) items.

Definition cleanedForm (f : ReviewForm) : ReviewForm :=
  {| diagnosis := diagnosis f; form_severity := form_severity f;
     recommendations := cleaned (recommendations f);
     follow_up_required := follow_up_required f;
     medications := cleaned (medications f);
     lifestyle_changes := cleaned (lifestyle_changes f) |}.

Definition settle (st : State) (l : bool) (e : value) : State :=
  {| reviewForm := reviewForm st; loading := l; error := e |}.

(** [handleSubmit]: [setLoading(true); setError('')], the request, then the
    callback or the error message, and [setLoading(false)] in [finally]. *)
Definition handleSubmit (case_id : value) (r : outcome Response) (st : State)
    : State * list effect :=
  let call := ReviewCase case_id (cleanedForm (reviewForm st)) in
  match r with
  | Resolved result =>
      if success result
      then (settle st false (VStr []), [call; OnReviewed])
      else (settle st false (resp_error result), [call])
  | Rejected =>
      (settle st false
         (VStr (lit "Failed to submit review. Please try again.")), [call])
  end.

(** The three list fields of the form, as the handlers name them. *)
Inductive list_field := Recommendations | Medications | LifestyleChanges.

(** [reviewForm[field]] *)
Definition items (field : list_field) (f : ReviewForm) : list jsstring :=
  match field with
  | Recommendations => recommendations f
  | Medications => medications f
  | LifestyleChanges => lifestyle_changes f
  end.

(** [{ ...reviewForm, [field]: l }] *)
Definition with_items (field : list_field) (l : list jsstring)
    (f : ReviewForm) : ReviewForm :=
  match field with
  | Recommendations =>
      {| diagnosis := diagnosis f; form_severity := form_severity f;
         recommendations := l; follow_up_required := follow_up_required f;
         medications := medications f;
         lifestyle_changes := lifestyle_changes f |}
  | Medications =>
      {| diagnosis := diagnosis f; form_severity := form_severity f;
         recommendations := recommendations f;
         follow_up_required := follow_up_required f;
         medications := l; lifestyle_changes := lifestyle_changes f |}
  | LifestyleChanges =>
      {| diagnosis := diagnosis f; form_severity := form_severity f;
         recommendations := recommendations f;
         follow_up_required := follow_up_required f;
         medications := medications f; lifestyle_changes := l |}
  end.

Definition setReviewForm (f : ReviewForm) (st : State) : State :=
  {| reviewForm := f; loading := loading st; error := error st |}.

(** [addItem(field)]: one more row, empty. *)
Definition addItem (field : list_field) (st : State) : State :=
  setReviewForm
    (with_items field (items field (reviewForm st) ++ [[]]) (reviewForm st))
    st.

(** [l.filter((_, i) => keep(i))], the index counted from [i]. *)
Fixpoint filter_index {A} (keep : nat -> bool) (i : nat) (l : list A)
    : list A :=
  match l with
  | [] => []
  | x :: l' =>
      if keep i then x :: filter_index keep (S i) l'
      else filter_index keep (S i) l'
  end.

(** [removeItem(field, index)]: [filter((_, i) => i !== index)] *)
Definition removeItem (field : list_field) (index : nat) (st : State)
    : State :=
  setReviewForm
    (with_items field
       (filter_index (fun i => negb (i =? index)%nat) 0
                     (items field (reviewForm st)))
       (reviewForm st))
    st.

(** [updateItem(field, index, value)]: [newItems[index] = value] on a copy.
    At [index = length] the assignment appends.  Beyond that it leaves
    holes in the array, which [ReviewForm] cannot hold: [None]. *)
Definition updateItem (field : list_field) (index : nat) (v : jsstring)
    (st : State) : option State :=
  let l := items field (reviewForm st) in
  if (index <? length l)%nat then
    Some (setReviewForm (with_items field (<[index := v]> l) (reviewForm st))
                        st)
  else if (index =? length l)%nat then
    Some (setReviewForm (with_items field (l ++ [v]) (reviewForm st)) st)
  else None.

End CaseReview.

(** ** PredictionForm *)

Module PredictionForm.

(** What an input control stores under a field name: the text of the control,
    the chosen [File], or [undefined] (no file chosen). *)
Inductive formval :=
| FStr (s : jsstring)
| FFile
| FUndefined.

(** [ToString], as [parseFloat] applies it to its argument. *)
Definition toString (v : formval) : jsstring :=
  match v with
  | FStr s => s
  | FFile => lit "[object File]"
  | FUndefined => lit "undefined"
  end.

Record Field := {
  name : jsstring;
  label : jsstring;
  type : jsstring;
  required : bool
}.

Record Disease := {
  disease_name : jsstring;
  description : jsstring;
  accuracy : option jsstring;
  fields : list Field
}.

Record Prediction := {
  prediction : Z;
  confidence : number;
  risk_level : jsstring;
  model_type : jsstring
}.

(** [null] is [None] for [error] and [predictionResult]; [resetDeps] is the
    dependency array [[selectedDisease]] React recorded when it last ran the
    reset effect ([None] before the first commit). *)
Record State := {
  selectedDisease : jsstring;
  formData : gmap jsstring formval;
  loading : bool;
  diseaseInfo : gmap jsstring Disease;
  isLoadingInfo : bool;
  error : option jsstring;
  predictionResult : option Prediction;
  resetDeps : option jsstring
}.

Definition initial : State :=
  {| selectedDisease := lit "anemia"; formData := ∅; loading := false;
     diseaseInfo := ∅; isLoadingInfo := true; error := None;
     predictionResult := None; resetDeps := None |}.

(** The reset effect: [setFormData({}); setPredictionResult(null);
    setError(null)]. *)
Definition resetEffect (st : State) : State :=
  {| selectedDisease := selectedDisease st; formData := ∅;
     loading := loading st; diseaseInfo := diseaseInfo st;
     isLoadingInfo := isLoadingInfo st; error := None;
     predictionResult := None; resetDeps := resetDeps st |}.

(** After a render React runs an effect when its dependencies differ from
    those of its last run, and records the new ones. *)
Definition commit (st : State) : State :=
  if bool_decide (resetDeps st = Some (selectedDisease st)) then st
  else
    let st' := resetEffect st in
    {| selectedDisease := selectedDisease st'; formData := formData st';
       loading := loading st'; diseaseInfo := diseaseInfo st';
       isLoadingInfo := isLoadingInfo st'; error := error st';
       predictionResult := predictionResult st';
       resetDeps := Some (selectedDisease st) |}.

(** [handleDiseaseSelect]: [setSelectedDisease(disease)], then the commit. *)
Definition handleDiseaseSelect (disease : jsstring) (st : State) : State :=
  commit
    {| selectedDisease := disease; formData := formData st;
       loading := loading st; diseaseInfo := diseaseInfo st;
       isLoadingInfo := isLoadingInfo st; error := error st;
       predictionResult := predictionResult st; resetDeps := resetDeps st |}.

(** [handleInputChange]: [setFormData(prev => ({...prev, [fieldName]: value}))] *)
Definition handleInputChange (fieldName : jsstring) (v : formval) (st : State)
    : State :=
  commit
    {| selectedDisease := selectedDisease st;
       formData := <[fieldName := v]> (formData st);
       loading := loading st; diseaseInfo := diseaseInfo st;
       isLoadingInfo := isLoadingInfo st; error := error st;
       predictionResult := predictionResult st; resetDeps := resetDeps st |}.

(** [formData[field.name]] *)
Definition formValue (data : gmap jsstring formval) (f : Field) : formval :=
  default FUndefined (data !! name f).

(** [parseFloat(value) || 0] *)
Definition numValue (v : formval) : number :=
  let x := parseFloat (toString v) in
  if truthy_number x then x else pos_zero.

(** [currentDisease.fields.map(field => ...)] *)
Definition features (d : Disease) (data : gmap jsstring formval) : list number :=
  map (fun f => numValue (formValue data f)) (fields d).

Record Response := {
  success : bool;
  resp_prediction : option Prediction;
  resp_error : option jsstring
}.

Inductive effect :=
| PredictDisease (disease : jsstring) (features : list number)
| OnResult (p : Prediction).

Definition finish (st : State) (e : option jsstring) (p : option Prediction)
    : State :=
  {| selectedDisease := selectedDisease st; formData := formData st;
     loading := false; diseaseInfo := diseaseInfo st;
     isLoadingInfo := isLoadingInfo st; error := e;
     predictionResult := p; resetDeps := resetDeps st |}.

Definition failed_message : jsstring :=
  lit "Failed to get prediction. Please try again.".

(** [handleSubmit]; [onResult] tells whether the parent passed the callback.
    Reading [fields] of a disease absent from the catalog throws before any
    request is made. *)
Definition handleSubmit (onResult : bool) (r : outcome Response) (st : State)
    : State * list effect :=
  match diseaseInfo st !! selectedDisease st with
  | None => (finish st (Some failed_message) None, [])
  | Some currentDisease =>
      let call :=
        PredictDisease (selectedDisease st)
                       (features currentDisease (formData st)) in
      match r with
      | Resolved result =>
          match success result, resp_prediction result with
          | true, Some predictionData =>
              (finish st None (Some predictionData),
               call :: (if onResult then [OnResult predictionData] else []))
          | _, _ =>
              (finish st
                 (Some (match resp_error result with
                        | Some e => if truthy_string e then e
                                    else lit "Invalid prediction response"
                        | None => lit "Invalid prediction response"
                        end)) None,
               [call])
          end
      | Rejected => (finish st (Some failed_message) None, [call])
      end
  end.

(** [{ success, diseases }] as the catalog endpoint answers *)
Record InfoResponse := {
  info_success : bool;
  diseases : gmap jsstring Disease
}.

(** [loadDiseaseInfo]: [setIsLoadingInfo(true); setError(null)], the
    request, then the catalog or an error message, and
    [setIsLoadingInfo(false)] in [finally]. *)
Definition loadDiseaseInfo (r : outcome InfoResponse) (st : State) : State :=
  let settled (info : gmap jsstring Disease) (e : option jsstring) :=
    {| selectedDisease := selectedDisease st; formData := formData st;
       loading := loading st; diseaseInfo := info;
       isLoadingInfo := false; error := e;
       predictionResult := predictionResult st;
       resetDeps := resetDeps st |} in
  match r with
  | Resolved result =>
      if info_success result then settled (diseases result) None
      else settled (diseaseInfo st)
                   (Some (lit "Failed to load disease information"))
  | Rejected =>
      settled (diseaseInfo st) (Some (lit "Error connecting to server"))
  end.

(** What the component renders: the spinner, the error panel with its
    retry button, the "could not load" panel with its reset button, or the
    form of the selected disease. *)
Inductive screen :=
| LoadingScreen
| RetryScreen (message : jsstring)
| MissingDiseaseScreen
| FormScreen (currentDisease : Disease).

Definition render (st : State) : screen :=
  if isLoadingInfo st then LoadingScreen
  else
    match error st with
    | Some e =>
        if truthy_string e && bool_decide (dom (diseaseInfo st) = ∅)
        then RetryScreen e
        else match diseaseInfo st !! selectedDisease st with
             | Some d => FormScreen d
             | None => MissingDiseaseScreen
             end
    | None =>
        match diseaseInfo st !! selectedDisease st with
        | Some d => FormScreen d
        | None => MissingDiseaseScreen
        end
    end.

End PredictionForm.

(** ** The host's clock and date rendering *)

(** [Date_parse v] is the time value of [new Date(v)], [NaN] for an invalid
    date; the two renderings depend on the host's time zone and locale. *)
Class Host := {
  Date_parse : value -> number;
  toDateString : number -> jsstring;
  toLocaleDateString : number -> jsstring
}.

(** A host for the examples: it reads a date from a count of milliseconds
    and prints it as the number of the day since the epoch. *)
Definition epoch_day (t : number) : jsstring :=
  match t with
  | S754_finite s m e =>
      let ms := if 0 <=? e then Z.pos m * 2 ^ e else Z.pos m / 2 ^ (- e) in
      decimal ((if s then - ms else ms) / 86400000)
  | S754_zero _ => lit "0"
  | _ => lit "Invalid Date"
  end.

Definition epoch_day_host : Host :=
  {| Date_parse := fun v => match v with VNum n => of_Z n | _ => NaN end;
     toDateString := epoch_day;
     toLocaleDateString := epoch_day |}.

(** ** Consultations, shared by the doctor's dashboard and the manager *)

Record Consultation := {
  id : value;
  patient_name : value;
  patient_email : value;
  requested_date : value;
  status : value;
  message : value;
  chat_room_id : value;
  created_at : value
}.

(** [{ ...consultation, status: newStatus }] *)
Definition with_status (c : Consultation) (newStatus : value) : Consultation :=
  {| id := id c; patient_name := patient_name c;
     patient_email := patient_email c; requested_date := requested_date c;
     status := newStatus; message := message c;
     chat_room_id := chat_room_id c; created_at := created_at c |}.

(** [list.map(c => c.id === consultationId ? { ...c, status: newStatus } : c)] *)
Definition patch_status (consultationId newStatus : value)
    (l : list Consultation) : list Consultation :=
  map (fun c => if strict_eq (id c) consultationId
                then with_status c newStatus else c) l.

(** [{ success }] as the update endpoint answers *)
Record UpdateResponse := { update_success : bool }.

Inductive api_call :=
| UpdateConsultationStatus (consultationId newStatus : value).

(** ** DoctorDashboard *)

Module DoctorDashboard.

Record Case := { case_id : value; case_disease : value }.

Record Stats := {
  totalPatients : nat;
  todayAppointments : nat;
  pendingReviews : nat;
  completedConsultations : nat
}.

Record State := {
  activeTab : jsstring;
  consultations : list Consultation;
  pendingCases : list Case;
  loading : bool;
  stats : Stats;
  selectedConsultation : option Consultation;
  showChat : bool
}.

Definition initial : State :=
  {| activeTab := lit "consultations"; consultations := []; pendingCases := [];
     loading := true;
     stats := {| totalPatients := 0; todayAppointments := 0;
                 pendingReviews := 0; completedConsultations := 0 |};
     selectedConsultation := None; showChat := false |}.

Section WithHost.
Context `{Host}.

(** [new Date(c.requested_date).toDateString() === today] *)
Definition requested_today (today : jsstring) (c : Consultation) : bool :=
  bool_decide (toDateString (Date_parse (requested_date c)) = today).

Definition is_completed (c : Consultation) : bool :=
  strict_eq (status c) (VStr (lit "completed")).

(** [updateStats(consultations = [], cases = [])] at time [now]; an argument
    that is [undefined] is [None] and takes its default.  The result is the
    object handed to [setStats]. *)
Definition updateStats (now : number)
    (consultations : option (list Consultation)) (cases : option (list Case))
    : Stats :=
  let consultations := default [] consultations in
  let cases := default [] cases in
  let today := toDateString now in
  let todayAppointments :=
    length (filter (fun c => Is_true (requested_today today c)) consultations) in
  {| totalPatients := length consultations;
     todayAppointments := todayAppointments;
     pendingReviews := length cases;
     completedConsultations :=
       length (filter (fun c => Is_true (is_completed c)) consultations) |}.

(** [{ success, consultations }] and [{ success, cases }]; a list the
    answer does not carry is [None]. *)
Record ConsultationsResponse := {
  consultations_success : bool;
  resp_consultations : option (list Consultation)
}.
Record CasesResponse := {
  cases_success : bool;
  resp_cases : option (list Case)
}.

(** [loadDashboardData]: both lists are fetched in turn and stored when the
    answer reports success ([list || []]); the stats are computed from the
    lists of the two answers, whatever their success flags.  A rejection
    skips the rest of the [try]; [finally] lowers [loading]. *)
Definition loadDashboardData (now : number)
    (r1 : outcome ConsultationsResponse) (r2 : outcome CasesResponse)
    (st : State) : State :=
  match r1 with
  | Rejected =>
      {| activeTab := activeTab st; consultations := consultations st;
         pendingCases := pendingCases st; loading := false; stats := stats st;
         selectedConsultation := selectedConsultation st;
         showChat := showChat st |}
  | Resolved consultationsResponse =>
      let l := if consultations_success consultationsResponse
               then default [] (resp_consultations consultationsResponse)
               else consultations st in
      match r2 with
      | Rejected =>
          {| activeTab := activeTab st; consultations := l;
             pendingCases := pendingCases st; loading := false;
             stats := stats st;
             selectedConsultation := selectedConsultation st;
             showChat := showChat st |}
      | Resolved casesResponse =>
          {| activeTab := activeTab st; consultations := l;
             pendingCases := if cases_success casesResponse
                             then default [] (resp_cases casesResponse)
                             else pendingCases st;
             loading := false;
             stats := updateStats now (resp_consultations consultationsResponse)
                                  (resp_cases casesResponse);
             selectedConsultation := selectedConsultation st;
             showChat := showChat st |}
      end
  end.

Definition set_consultations_stats (st : State) (l : list Consultation)
    (s : Stats) : State :=
  {| activeTab := activeTab st; consultations := l;
     pendingCases := pendingCases st; loading := loading st; stats := s;
     selectedConsultation := selectedConsultation st; showChat := showChat st |}.

(** [handleStatusUpdate]: [snap] is the render whose closure the handler
    holds (it supplies [consultations] and [pendingCases] for the stats),
    [st] is the state the functional update [prev => ...] is applied to. *)
Definition handleStatusUpdate (snap : State) (consultationId newStatus : value)
    (now : number) (r : outcome UpdateResponse) (st : State)
    : State * list api_call :=
  let call := UpdateConsultationStatus consultationId newStatus in
  match r with
  | Resolved response =>
      if update_success response then
        let updatedConsultations :=
          patch_status consultationId newStatus (consultations snap) in
        (set_consultations_stats st
           (patch_status consultationId newStatus (consultations st))
           (updateStats now (Some updatedConsultations)
                        (Some (pendingCases snap))),
         [call])
      else (st, [call])
  | Rejected => (st, [call])
  end.

End WithHost.

End DoctorDashboard.


(** ** ConsultationManager *)

Module ConsultationManager.

(** [updatingStatus] is an object used as a map from property keys to
    flags. *)
Record State := {
  consultations : list Consultation;
  loading : bool;
  updatingStatus : gmap jsstring bool
}.

Definition initial : State :=
  {| consultations := []; loading := true; updatingStatus := ∅ |}.

(** [ToPropertyKey] of an id *)
Definition propertyKey (v : value) : jsstring :=
  match v with
  | VUndefined => lit "undefined"
  | VNull => lit "null"
  | VBool true => lit "true"
  | VBool false => lit "false"
  | VNum n => decimal n
  | VStr s => s
  end.

(** [{ ...prev, [consultationId]: flag }] *)
Definition set_updating (consultationId : value) (flag : bool)
    (m : gmap jsstring bool) : gmap jsstring bool :=
  <[propertyKey consultationId := flag]> m.

(** [handleStatusUpdate]: a falsy id returns before any request; otherwise
    the flag is raised, the request awaited, the list patched on success,
    and the flag lowered in [finally]. *)
Definition handleStatusUpdate (consultationId newStatus : value)
    (r : outcome UpdateResponse) (st : State) : State * list api_call :=
  if negb (truthy consultationId) then (st, [])
  else
    let call := UpdateConsultationStatus consultationId newStatus in
    let flags := set_updating consultationId false
                   (set_updating consultationId true (updatingStatus st)) in
    match r with
    | Resolved response =>
        if update_success response then
          ({| consultations :=
                patch_status consultationId newStatus (consultations st);
              loading := loading st; updatingStatus := flags |}, [call])
        else
          ({| consultations := consultations st; loading := loading st;
              updatingStatus := flags |}, [call])
    | Rejected =>
        ({| consultations := consultations st; loading := loading st;
            updatingStatus := flags |}, [call])
    end.

(** [{ success, consultations }] *)
Record ListResponse := {
  list_success : bool;
  resp_consultations : option (list Consultation)
}.

(** [loadConsultations] *)
Definition loadConsultations (r : outcome ListResponse) (st : State) : State :=
  match r with
  | Resolved response =>
      if list_success response then
        {| consultations := default [] (resp_consultations response);
           loading := false; updatingStatus := updatingStatus st |}
      else
        {| consultations := consultations st; loading := false;
           updatingStatus := updatingStatus st |}
  | Rejected =>
      {| consultations := consultations st; loading := false;
         updatingStatus := updatingStatus st |}
  end.

(** [disabled={updatingStatus[consultation.id]}] *)
Definition buttonsDisabled (c : Consultation) (st : State) : bool :=
  default false (updatingStatus st !! propertyKey (id c)).

End ConsultationManager.

(** ** PatientDashboard *)

Module PatientDashboard.

(** [favoriteModel] is [None] when the array read yields [undefined]. *)
Record Stats := {
  totalPredictions : number;
  consultations : number;
  lastCheckup : jsstring;
  totalModels : number;
  favoriteModel : option jsstring
}.

Record State := {
  activeTab : value;
  currentResult : option PredictionForm.Prediction;
  stats : Stats;
  loading : bool;
  statsLoading : bool
}.

Definition initial : State :=
  {| activeTab := VStr (lit "predict"); currentResult := None;
     stats := {| totalPredictions := of_Z 0; consultations := of_Z 0;
                 lastCheckup := lit "Never"; totalModels := of_Z 5;
                 favoriteModel := Some (lit "Loading...") |};
     loading := true; statsLoading := false |}.

Record StatsResponse := { success : bool; resp_stats : Stats }.

(** The four values [Math.random()] returns while the mock stats are built,
    in the order of the calls. *)
Record Draws := { draw1 : number; draw2 : number; draw3 : number; draw4 : number }.

Definition modelNames : list jsstring :=
  [lit "Anemia Detection"; lit "Diabetes Prediction"; lit "Heart Disease"].

Section WithHost.
Context `{Host}.

(** The object [mockStats]; [toLocaleDateString t] stands for
    [new Date(t).toLocaleDateString()]. *)
Definition mockStats (now : number) (d : Draws) : Stats :=
  {| totalPredictions := add (floor (mul (draw1 d) (of_Z 15))) (of_Z 1);
     consultations := floor (mul (draw2 d) (of_Z 5));
     lastCheckup :=
       toLocaleDateString
         (sub now
            (mul (mul (mul (mul (mul (draw3 d) (of_Z 30)) (of_Z 24)) (of_Z 60))
                      (of_Z 60)) (of_Z 1000)));
     totalModels := of_Z 5;
     favoriteModel :=
       i ← array_index (floor (mul (draw4 d) (of_Z 3))); modelNames !! i |}.

Definition set_stats (st : State) (s : Stats) : State :=
  {| activeTab := activeTab st; currentResult := currentResult st;
     stats := s; loading := loading st; statsLoading := false |}.

Inductive effect :=
| GetPatientStats
| ConsoleLog
| ConsoleWarn.

(** [loadPatientStats]: the inner [try] takes the backend's stats when the
    call succeeds; an unsuccessful answer (a warning on the console) and a
    thrown error (a line on the console) both fall through to the mock
    stats.  [finally] lowers [statsLoading].  Nothing outside the inner
    [try] throws, so the outer [catch] is not entered. *)
Definition loadPatientStats (now : number) (d : Draws)
    (r : outcome StatsResponse) (st : State) : State * list effect :=
  match r with
  | Resolved result =>
      if success result
      then (set_stats st (resp_stats result),
            [ConsoleLog; GetPatientStats; ConsoleLog])
      else (set_stats st (mockStats now d),
            [ConsoleLog; GetPatientStats; ConsoleWarn; ConsoleLog])
  | Rejected =>
      (set_stats st (mockStats now d),
       [ConsoleLog; GetPatientStats; ConsoleLog; ConsoleLog])
  end.

(** [handlePredictionResult], up to the timer that reloads the stats later. *)
Definition handlePredictionResult (now : number)
    (result : PredictionForm.Prediction) (st : State) : State :=
  {| activeTab := activeTab st; currentResult := Some result;
     stats := {| totalPredictions := add (totalPredictions (stats st)) (of_Z 1);
                 consultations := consultations (stats st);
                 lastCheckup := toLocaleDateString now;
                 totalModels := totalModels (stats st);
                 favoriteModel := favoriteModel (stats st) |};
     loading := loading st; statsLoading := statsLoading st |}.

End WithHost.

(** [handleTabChange] *)
Definition handleTabChange (tabId : value) (st : State) : State :=
  {| activeTab := tabId;
     currentResult := if strict_ne tabId (VStr (lit "predict")) then None
                      else currentResult st;
     stats := stats st; loading := loading st;
     statsLoading := statsLoading st |}.

(** [{ success, authenticated }] as the session endpoint answers *)
Record SessionResponse := { session_success : bool; authenticated : bool }.

(** The session check resolves with an answer, or it rejects with an error
    whose [error.response?.status] is the given number, if any. *)
Inductive session_outcome :=
| SessionAnswer (sessionCheck : SessionResponse)
| SessionError (status : option Z).

Inductive init_effect :=
| CheckSession
| OnLogout
| Console
| FromStats (e : effect).

Section Initialize.
Context `{Host}.

(** [initializeDashboard], the effect run on mount.  [loadPatientStats]
    catches what its request throws, so the outer [catch] sees the errors
    of the session check only. *)
Definition initializeDashboard (now : number) (d : Draws)
    (s : session_outcome) (r : outcome StatsResponse) (st : State)
    : State * list init_effect :=
  let lowered (st : State) :=
    {| activeTab := activeTab st; currentResult := currentResult st;
       stats := stats st; loading := false;
       statsLoading := statsLoading st |} in
  match s with
  | SessionAnswer sessionCheck =>
      if negb (session_success sessionCheck)
         || negb (authenticated sessionCheck)
      then (lowered st, [Console; CheckSession; Console; OnLogout])
      else
        let '(st', out) := loadPatientStats now d r st in
        (lowered st',
         [Console; CheckSession; Console] ++ (FromStats <$> out))
  | SessionError status =>
      if bool_decide (status = Some 401) || bool_decide (status = Some 404)
      then (lowered st, [Console; CheckSession; Console; Console; OnLogout])
      else (lowered st, [Console; CheckSession; Console])
  end.

End Initialize.

End PatientDashboard.

(** ** DoctorPatientChat *)

Module DoctorPatientChat.

Record Message := {
  msg_id : value;
  sender_id : value;
  content : jsstring;
  message_type : jsstring;
  file_url : value;
  timestamp : value
}.

(** The payload of a [user_typing] event. *)
Record TypingData := { user_id : value; typing : value }.

(** The props the handlers read: [consultation.chat_room_id],
    [consultation.id] and [user.id]. *)
Record Props := {
  room_id : value;
  consultation_id : value;
  local_user_id : value
}.

(** [socket] is [false] while the state still holds [null]. *)
Record State := {
  messages : list Message;
  newMessage : jsstring;
  isTyping : bool;
  typingUsers : list TypingData;
  socket : bool;
  loading : bool;
  onlineUsers : list value
}.

Definition initial : State :=
  {| messages := []; newMessage := []; isTyping := false; typingUsers := [];
     socket := false; loading := true; onlineUsers := [] |}.

Inductive effect :=
| SendMessage (room : value) (text : jsstring) (kind : jsstring) (url : value)
| UploadChatFile (file : jsstring) (room : value)
| GetChatMessages (room : value)
| StartVideoCall (consultation room : value)
| EmitJoin (room : value)
| EmitTyping (room : value) (typing : bool)
| ScrollToBottom
| WindowOpen (call_id : value).

Record Response := { success : bool }.
Record MessagesResponse := { msgs_success : bool; resp_messages : list Message }.
Record UploadResponse := {
  upload_success : bool; filename : jsstring; upload_url : value }.
Record CallResponse := { call_success : bool; call_id : value }.

Definition set_messages (st : State) (l : list Message) : State :=
  {| messages := l; newMessage := newMessage st; isTyping := isTyping st;
     typingUsers := typingUsers st; socket := socket st;
     loading := loading st; onlineUsers := onlineUsers st |}.

Definition set_newMessage (st : State) (s : jsstring) : State :=
  {| messages := messages st; newMessage := s; isTyping := isTyping st;
     typingUsers := typingUsers st; socket := socket st;
     loading := loading st; onlineUsers := onlineUsers st |}.

Definition set_isTyping (st : State) (b : bool) : State :=
  {| messages := messages st; newMessage := newMessage st; isTyping := b;
     typingUsers := typingUsers st; socket := socket st;
     loading := loading st; onlineUsers := onlineUsers st |}.

Definition set_typingUsers (st : State) (l : list TypingData) : State :=
  {| messages := messages st; newMessage := newMessage st;
     isTyping := isTyping st; typingUsers := l; socket := socket st;
     loading := loading st; onlineUsers := onlineUsers st |}.

Definition set_loading (st : State) (b : bool) : State :=
  {| messages := messages st; newMessage := newMessage st;
     isTyping := isTyping st; typingUsers := typingUsers st;
     socket := socket st; loading := b; onlineUsers := onlineUsers st |}.

Definition set_onlineUsers (st : State) (l : list value) : State :=
  {| messages := messages st; newMessage := newMessage st;
     isTyping := isTyping st; typingUsers := typingUsers st;
     socket := socket st; loading := loading st; onlineUsers := l |}.

Definition set_socket (st : State) : State :=
  {| messages := messages st; newMessage := newMessage st;
     isTyping := isTyping st; typingUsers := typingUsers st;
     socket := true; loading := loading st; onlineUsers := onlineUsers st |}.

Section WithProps.
Variable props : Props.

(** [newSocket.on('new_message', ...)] *)
Definition on_new_message (message : Message) (st : State)
    : State * list effect :=
  (set_messages st (messages st ++ [message]), [ScrollToBottom]).

(** The update [prev => ...] of the [user_typing] listener. *)
Definition typing_update (data : TypingData) (prev : list TypingData)
    : list TypingData :=
  if truthy (typing data)
  then filter (fun u => Is_true (strict_ne (user_id u) (user_id data))) prev
         ++ [data]
  else filter (fun u => Is_true (strict_ne (user_id u) (user_id data))) prev.

(** [newSocket.on('user_typing', ...)] *)
Definition on_user_typing (data : TypingData) (st : State) : State :=
  if strict_ne (user_id data) (local_user_id props)
  then set_typingUsers st (typing_update data (typingUsers st))
  else st.

(** [newSocket.on('user_joined', ...)] *)
Definition on_user_joined (joined : value) (st : State) : State :=
  set_onlineUsers st (onlineUsers st ++ [joined]).

(** [newSocket.on('connect', ...)] *)
Definition on_connect : list effect :=
  if truthy (room_id props) then [EmitJoin (room_id props)] else [].

(** [loadChatMessages] *)
Definition loadChatMessages (r : outcome MessagesResponse) (st : State)
    : State * list effect :=
  if truthy (room_id props) then
    match r with
    | Resolved response =>
        if msgs_success response
        then (set_loading (set_messages st (resp_messages response)) false,
              [GetChatMessages (room_id props); ScrollToBottom])
        else (set_loading st false, [GetChatMessages (room_id props)])
    | Rejected => (set_loading st false, [GetChatMessages (room_id props)])
    end
  else (set_loading st false, []).

(** [handleTyping] *)
Definition handleTyping (typing : bool) (st : State) : State * list effect :=
  (set_isTyping st typing,
   if socket st && truthy (room_id props)
   then [EmitTyping (room_id props) typing] else []).

(** [handleSendMessage] *)
Definition handleSendMessage (r : outcome Response) (st : State)
    : State * list effect :=
  if negb (truthy_string (trim (newMessage st)))
     || negb (truthy (room_id props))
  then (st, [])
  else
    let call :=
      SendMessage (room_id props) (trim (newMessage st)) (lit "text")
                  VUndefined in
    match r with
    | Resolved response =>
        if success response then
          let '(st', out) := handleTyping false (set_newMessage st []) in
          (st', call :: out)
        else (st, [call])
    | Rejected => (st, [call])
    end.

(** [handleFileUpload]: [file] is [event.target.files[0]], [None] when no
    file was chosen.  The follow-up message is awaited inside the same [try],
    and its outcome changes nothing.  The text starts with U+1F4CE (a
    surrogate pair) and a space. *)
Definition handleFileUpload (file : option jsstring)
    (r : outcome UploadResponse) (st : State) : State * list effect :=
  match file with
  | None => (st, [])
  | Some f =>
      if negb (truthy (room_id props)) then (st, [])
      else
        match r with
        | Resolved uploadResponse =>
            if upload_success uploadResponse then
              (st, [UploadChatFile f (room_id props);
                    SendMessage (room_id props)
                      ([55357; 56526; 32]%N ++ lit "Medical document: "
                         ++ filename uploadResponse)
                      (lit "file") (upload_url uploadResponse)])
            else (st, [UploadChatFile f (room_id props)])
        | Rejected => (st, [UploadChatFile f (room_id props)])
        end
  end.

(** [handleStartVideoCall] *)
Definition handleStartVideoCall (r : outcome CallResponse) (st : State)
    : State * list effect :=
  let call := StartVideoCall (consultation_id props) (room_id props) in
  match r with
  | Resolved response =>
      if call_success response then (st, [call; WindowOpen (call_id response)])
      else (st, [call])
  | Rejected => (st, [call])
  end.

(** The input's [onChange]. *)
Definition onChange (v : jsstring) (st : State) : State * list effect :=
  handleTyping (0 <? length v)%nat (set_newMessage st v).

(** What can happen to a mounted chat. *)
Inductive event :=
| NewMessage (message : Message)
| UserTyping (data : TypingData)
| UserJoined (joined : value)
| Connect
| SocketStored
| HistoryLoad (r : outcome MessagesResponse)
| Submit (r : outcome Response)
| FileChosen (file : option jsstring) (r : outcome UploadResponse)
| VideoCall (r : outcome CallResponse)
| InputChange (v : jsstring)
| InputBlur
| QuickReply (text : jsstring).

Definition step (e : event) (st : State) : State * list effect :=
  match e with
  | NewMessage m => on_new_message m st
  | UserTyping d => (on_user_typing d st, [])
  | UserJoined u => (on_user_joined u st, [])
  | Connect => (st, on_connect)
  | SocketStored => (set_socket st, [])
  | HistoryLoad r => loadChatMessages r st
  | Submit r => handleSendMessage r st
  | FileChosen f r => handleFileUpload f r st
  | VideoCall r => handleStartVideoCall r st
  | InputChange v => onChange v st
  | InputBlur => handleTyping false st
  | QuickReply text => (set_newMessage st text, [])
  end.

(** The state after a run of events. *)
Definition run (es : list event) (st : State) : State :=
  fold_left (fun s e => fst (step e s)) es st.

End WithProps.

(** [onlineUsers.length > 1 ? 'Online' : 'Offline'] *)
Definition shownOnline (st : State) : bool := (1 <? length (onlineUsers st))%nat.

End DoctorPatientChat.

(** ** Results *)

Module Results.

(** [result.prediction === 0 ? 'Negative' : 'Positive'], as [Results] and
    the result card of [PredictionForm] print a prediction. *)
Definition predictionLabel (prediction : value) : jsstring :=
  if strict_eq prediction (VNum 0) then lit "Negative" else lit "Positive".

(** [((result.confidence || 0) * 100).toFixed(1)] *)
Definition confidenceText (confidence : number) : option jsstring :=
  toFixed1 (mul (if truthy_number confidence then confidence else pos_zero)
                (of_Z 100)).

End Results.

(** ** PatientHistory *)

Module PatientHistory.

(** A prediction record of the history; [confidence] is [None] when the
    record has none. *)
Record Item := {
  record_id : value;
  disease : jsstring;
  status : jsstring;
  prediction : value;
  confidence : option number;
  risk_level : jsstring;
  timestamp : value
}.

Record State := {
  history : list Item;
  loading : bool;
  filter : jsstring
}.

Definition initial : State :=
  {| history := []; loading := true; filter := lit "all" |}.

Record Response := { success : bool; predictions : list Item }.

(** [loadHistory] *)
Definition loadHistory (r : outcome Response) (st : State) : State :=
  match r with
  | Resolved result =>
      if success result
      then {| history := predictions result; loading := false;
              filter := filter st |}
      else {| history := history st; loading := false; filter := filter st |}
  | Rejected =>
      {| history := history st; loading := false; filter := filter st |}
  end.

(** [setFilter(e.target.value)] *)
Definition setFilter (v : jsstring) (st : State) : State :=
  {| history := history st; loading := loading st; filter := v |}.

(** The callback of [history.filter(...)]. *)
Definition shown (filter : jsstring) (item : Item) : bool :=
  if bool_decide (filter = lit "all") then true
  else if bool_decide (filter = lit "reviewed")
       then bool_decide (status item = lit "reviewed")
  else if bool_decide (filter = lit "pending")
       then bool_decide (status item = lit "pending_review")
  else bool_decide (disease item = filter).

Definition filteredHistory (st : State) : list Item :=
  base.filter (fun item => Is_true (shown (filter st) item)) (history st).


(** [record.prediction === 1 ? 'Positive' : 'Negative'], as the history and
    the case review print a prediction. *)
Definition predictionLabel (prediction : value) : jsstring :=
  if strict_eq prediction (VNum 1) then lit "Positive" else lit "Negative".

(** [(record.confidence * 100).toFixed(1)]; a missing confidence is
    [undefined], which [*] turns into [NaN]. *)
Definition confidenceText (item : Item) : option jsstring :=
  toFixed1 (mul (default NaN (confidence item)) (of_Z 100)).

End PatientHistory.

(** ** Login *)

Module Login.

Record Credentials := {
  email : jsstring;
  password : jsstring;
  user_type : value
}.

Record User := {
  user_id : value;
  user_name : value;
  user_email : value;
  role : value
}.

Record State := {
  formData : Credentials;
  loading : bool;
  error : value;
  showRegister : bool
}.

Definition initial (userType : value) : State :=
  {| formData := {| email := []; password := []; user_type := userType |};
     loading := false; error := VStr []; showRegister := false |}.

(** [{ success, user, error }]; [user] is [None] when the answer has
    none. *)
Record Response := {
  success : bool;
  user : option User;
  resp_error : value
}.

(** [SetItem key u] is [localStorage.setItem(key, JSON.stringify(u))]. *)
Inductive effect :=
| LoginUser (c : Credentials)
| SetItem (key : jsstring) (u : option User)
| OnLogin (u : option User).

(** [handleSubmit] *)
Definition handleSubmit (r : outcome Response) (st : State)
    : State * list effect :=
  let settled (e : value) :=
    {| formData := formData st; loading := false; error := e;
       showRegister := showRegister st |} in
  let call := LoginUser (formData st) in
  match r with
  | Resolved result =>
      if success result
      then (settled (VStr []),
            [call; SetItem (lit "user") (user result); OnLogin (user result)])
      else (settled (resp_error result), [call])
  | Rejected => (settled (VStr (lit "Login failed. Please try again.")), [call])
  end.

(** [handleRegistrationSuccess] *)
Definition handleRegistrationSuccess (userData : User) (st : State)
    : State * list effect :=
  ({| formData := formData st; loading := loading st; error := error st;
      showRegister := false |},
   [SetItem (lit "user") (Some userData); OnLogin (Some userData)]).

End Login.

(** ** Register *)

Module Register.

(** The form is an object used as a map from input names to values; a key
    the object lacks reads as [undefined]. *)
Definition get (m : gmap jsstring value) (k : jsstring) : value :=
  default VUndefined (m !! k).

Record State := {
  formData : gmap jsstring value;
  loading : bool;
  message : jsstring
}.

(** The form as [useState] and the reset after a registration build it:
    [userType || 'patient'] for the role, every other field empty. *)
Definition emptyForm (userType : value) : gmap jsstring value :=
  list_to_map
    [(lit "email", VStr []); (lit "password", VStr []); (lit "name", VStr []);
     (lit "userType", if truthy userType then userType
                      else VStr (lit "patient"));
     (lit "age", VStr []); (lit "gender", VStr []); (lit "phone", VStr []);
     (lit "specialization", VStr []); (lit "licenseNumber", VStr []);
     (lit "experience", VStr [])].

Definition initial (userType : value) : State :=
  {| formData := emptyForm userType; loading := false; message := [] |}.

(** [handleChange], for the input named [name]. *)
Definition handleChange (name v : jsstring) (st : State) : State :=
  {| formData := <[name := VStr v]> (formData st); loading := loading st;
     message := message st |}.

(** [{ ...formData, user_type: formData.userType,
       license_number: formData.licenseNumber }] *)
Definition registrationData (formData : gmap jsstring value)
    : gmap jsstring value :=
  <[lit "license_number" := get formData (lit "licenseNumber")]>
    (<[lit "user_type" := get formData (lit "userType")]> formData).

(** [response.data]: [{ success, user, error }] *)
Record ResponseData := {
  success : bool;
  user : option Login.User;
  data_error : option jsstring
}.

(** The request resolves with [response.data], or it rejects with an error
    whose [error.response?.data?.error] is the given text, if any. *)
Inductive post_outcome :=
| Posted (data : ResponseData)
| Failed (server_error : option jsstring).

Inductive effect :=
| PostRegister (data : gmap jsstring value)
| OnRegistrationSuccess (u : Login.User).

Definition failed_message : jsstring :=
  lit "Registration failed. Please try again.".

(** [text || 'Registration failed. Please try again.'] *)
Definition or_failed (text : option jsstring) : jsstring :=
  match text with
  | Some e => if truthy_string e then e else failed_message
  | None => failed_message
  end.

(** [handleSubmit]; [onRegistrationSuccess] tells whether the parent passed
    the callback, [userType] is the prop. *)
Definition handleSubmit (onRegistrationSuccess : bool) (userType : value)
    (r : post_outcome) (st : State) : State * list effect :=
  let call := PostRegister (registrationData (formData st)) in
  match r with
  | Posted data =>
      if success data then
        match onRegistrationSuccess, user data with
        | true, Some u =>
            ({| formData := formData st; loading := false;
                message := lit "Registration successful! You can now login." |},
             [call; OnRegistrationSuccess u])
        | _, _ =>
            ({| formData := emptyForm userType; loading := false;
                message := lit "Registration successful! You can now login." |},
             [call])
        end
      else
        ({| formData := formData st; loading := false;
            message := or_failed (data_error data) |}, [call])
  | Failed server_error =>
      ({| formData := formData st; loading := false;
          message := or_failed server_error |}, [call])
  end.

(** The banner under the form: none without a message, else green when
    [message.includes('successful')] and red otherwise. *)
Inductive banner := NoBanner | Green | Red.

Definition shownBanner (st : State) : banner :=
  if truthy_string (message st) then
    if includes (lit "successful") (message st) then Green else Red
  else NoBanner.

End Register.

(** * Properties *)

(** ** Vocabulary of the statements *)

(** A string made of white space only (the empty string included). *)
Definition blank (s : jsstring) : Prop :=
  Forall (fun c => isWhiteSpace c = true) s.

(** [posted] is [entered] without its blank entries, the others kept in
    their order. *)
Inductive drops_blank : list jsstring -> list jsstring -> Prop :=
| drops_nil : drops_blank [] []
| drops_skip x entered posted :
    blank x -> drops_blank entered posted -> drops_blank (x :: entered) posted
| drops_keep x entered posted :
    ~ blank x -> drops_blank entered posted ->
    drops_blank (x :: entered) (x :: posted).

(** Two consultations that agree on every field but [status]. *)
Definition same_but_status (c c' : Consultation) : Prop :=
  id c' = id c /\ patient_name c' = patient_name c /\
  patient_email c' = patient_email c /\ requested_date c' = requested_date c /\
  message c' = message c /\ chat_room_id c' = chat_room_id c /\
  created_at c' = created_at c.

(** [new] is [old] with the status of the records whose id is
    [consultationId] set to [newStatus], and nothing else changed. *)
Definition status_patched (consultationId newStatus : value)
    (old new : list Consultation) : Prop :=
  Forall2 (fun c c' =>
             if decide (id c = consultationId)
             then status c' = newStatus /\ same_but_status c c'
             else c' = c) old new.

(** The update request was made and its answer reports success. *)
Definition reports_success (calls : list api_call)
    (r : outcome UpdateResponse) : Prop :=
  calls <> [] /\ exists response, r = Resolved response /\
                                  update_success response = true.

(** What each event of the chat does to the message list: a [new_message]
    appends, a successful history load replaces, nothing else touches it. *)
Definition messages_after (props : DoctorPatientChat.Props)
    (e : DoctorPatientChat.event) (st : DoctorPatientChat.State)
    : list DoctorPatientChat.Message :=
  match e with
  | DoctorPatientChat.NewMessage m => DoctorPatientChat.messages st ++ [m]
  | DoctorPatientChat.HistoryLoad (Resolved response) =>
      if truthy (DoctorPatientChat.room_id props)
         && DoctorPatientChat.msgs_success response
      then DoctorPatientChat.resp_messages response
      else DoctorPatientChat.messages st
  | _ => DoctorPatientChat.messages st
  end.

(** No entry of a typing list is the local user's, and no two entries have
    the same user id. *)
Definition typing_invariant (local : value)
    (l : list DoctorPatientChat.TypingData) : Prop :=
  Forall (fun u => DoctorPatientChat.user_id u <> local) l /\
  NoDup (DoctorPatientChat.user_id <$> l).

(** The entries of a typing list that belong to other users than [uid]. *)
Definition others (uid : value) (l : list DoctorPatientChat.TypingData)
    : list DoctorPatientChat.TypingData :=
  filter (fun u => DoctorPatientChat.user_id u <> uid) l.

(** The stats fetch failed: the call threw, or it answered without success. *)
Definition fetch_failed (r : outcome PatientDashboard.StatsResponse) : Prop :=
  match r with
  | Resolved result => PatientDashboard.success result = false
  | Rejected => True
  end.

(** The displayed stats survive a failed fetch. *)
Definition stats_kept_on_failure (host : Host) (now : number)
    (d : PatientDashboard.Draws) (r : outcome PatientDashboard.StatsResponse)
    (st : PatientDashboard.State) : Prop :=
  fetch_failed r ->
  PatientDashboard.stats (fst (PatientDashboard.loadPatientStats now d r st))
  = PatientDashboard.stats st.

(** The date strings of a list of consultations, as the dashboard renders
    them. *)
Definition rendered_dates `{Host} (l : list Consultation) : list jsstring :=
  map (fun c => toDateString (Date_parse (requested_date c))) l.

(** Entering values into the form, one field at a time. *)
Definition enter (entries : list (jsstring * PredictionForm.formval))
    (st : PredictionForm.State) : PredictionForm.State :=
  fold_left (fun s kv => PredictionForm.handleInputChange kv.1 kv.2 s)
            entries st.

(** The text [parseFloat] reads for what the form holds under a field name:
    nothing stored reads as [undefined]. *)
Definition entered_text (entered : option PredictionForm.formval) : jsstring :=
  match entered with
  | Some v => PredictionForm.toString v
  | None => lit "undefined"
  end.

(** [x] is the numeric parse of what was entered, or [+0] when the parse is
    [NaN] or a zero. *)
Definition coerced (entered : option PredictionForm.formval) (x : number)
    : Prop :=
  let parsed := parseFloat (entered_text entered) in
  match parsed with
  | S754_nan | S754_zero _ => x = pos_zero
  | _ => x = parsed
  end.

(** No prefix of the text, after its leading white space, is a decimal
    literal. *)
Definition unparseable (text : jsstring) : Prop :=
  strUnsignedDecimalLiteral (snd (signedPart (trimStart text))) = None.

(** Nothing usable was entered: no value, or white space only. *)
Definition missing_or_blank (entered : option PredictionForm.formval) : Prop :=
  entered = None \/ entered = Some PredictionForm.FUndefined \/
  exists s, entered = Some (PredictionForm.FStr s) /\ blank s.

(** Every feature of every prediction request of a submission is finite. *)
Definition features_all_finite (onResult : bool)
    (r : outcome PredictionForm.Response) (st : PredictionForm.State) : Prop :=
  forall d fs,
    PredictionForm.PredictDisease d fs
      ∈ snd (PredictionForm.handleSubmit onResult r st) ->
    Forall (fun x => is_finite x = true) fs.

(** ** Example data *)

Definition room1 : DoctorPatientChat.Props :=
  {| DoctorPatientChat.room_id := VStr (lit "room-1");
     DoctorPatientChat.consultation_id := VNum 7;
     DoctorPatientChat.local_user_id := VNum 1 |}.

Definition zero_draws : PatientDashboard.Draws :=
  {| PatientDashboard.draw1 := pos_zero; PatientDashboard.draw2 := pos_zero;
     PatientDashboard.draw3 := pos_zero; PatientDashboard.draw4 := pos_zero |}.

Definition hemoglobin : PredictionForm.Field :=
  {| PredictionForm.name := lit "hemoglobin";
     PredictionForm.label := lit "Hemoglobin";
     PredictionForm.type := lit "text"; PredictionForm.required := true |}.

Definition anemia : PredictionForm.Disease :=
  {| PredictionForm.disease_name := lit "Anemia Detection";
     PredictionForm.description := lit "Detects anemia";
     PredictionForm.accuracy := None;
     PredictionForm.fields := [hemoglobin] |}.

(** The anemia form with [text] typed into its one field. *)
Definition anemia_form (text : jsstring) : PredictionForm.State :=
  {| PredictionForm.selectedDisease := lit "anemia";
     PredictionForm.formData :=
       {[ lit "hemoglobin" := PredictionForm.FStr text ]};
     PredictionForm.loading := false;
     PredictionForm.diseaseInfo := {[ lit "anemia" := anemia ]};
     PredictionForm.isLoadingInfo := false;
     PredictionForm.error := None;
     PredictionForm.predictionResult := None;
     PredictionForm.resetDeps := Some (lit "anemia") |}.

Definition consultation_on (n : Z) (day : Z) (st : jsstring) : Consultation :=
  {| id := VNum n; patient_name := VStr (lit "Ann");
     patient_email := VStr (lit "ann@example.org");
     requested_date := VNum (day * 86400000); status := VStr st;
     message := VNull; chat_room_id := VNull; created_at := VNull |}.

(** A request failed: it threw, or its answer does not report success. *)
Definition fails {A} (ok : A -> bool) (r : outcome A) : Prop :=
  match r with
  | Resolved a => ok a = false
  | Rejected => True
  end.

(** Every [onLogin(u)] of a run of effects comes right after
    [localStorage.setItem('user', JSON.stringify(u))] for the same [u]. *)
Definition stored_before_login (out : list Login.effect) : Prop :=
  forall pre u post,
    out = pre ++ Login.OnLogin u :: post ->
    exists pre', pre = pre' ++ [Login.SetItem (lit "user") u].


(** The ids announced by the [user_joined] events of a run, in order. *)
Definition joined (es : list DoctorPatientChat.event) : list value :=
  omap (fun e => match e with
                 | DoctorPatientChat.UserJoined u => Some u
                 | _ => None
                 end) es.

(** The last typing event of a user in a run of typing events. *)
Definition last_event_of (uid : value)
    (ds : list DoctorPatientChat.TypingData)
    : option DoctorPatientChat.TypingData :=
  last (base.filter (fun d => DoctorPatientChat.user_id d = uid) ds).

(** A string that does not start with white space. *)
Definition no_lead (l : jsstring) : Prop :=
  match l with [] => True | c :: _ => isWhiteSpace c = false end.

Definition one_consultation : DoctorDashboard.ConsultationsResponse :=
  {| DoctorDashboard.consultations_success := true;
     DoctorDashboard.resp_consultations :=
       Some [consultation_on 1 20759 (lit "pending")] |}.

Definition no_cases : DoctorDashboard.CasesResponse :=
  {| DoctorDashboard.cases_success := true;
     DoctorDashboard.resp_cases := None |}.

Definition typing_event (uid : Z) (flag : bool)
    : DoctorPatientChat.TypingData :=
  {| DoctorPatientChat.user_id := VNum uid;
     DoctorPatientChat.typing := VBool flag |}.

(** ** Strict equality *)

Section Values.

Lemma strict_ne_spec (x y : value) : strict_ne x y = true <-> x <> y.
Proof.
  unfold strict_ne, strict_eq. rewrite negb_true_iff, bool_decide_eq_false.
  reflexivity.
Qed.

Lemma strict_ne_True (x y : value) : Is_true (strict_ne x y) <-> x <> y.
Proof. rewrite Is_true_true. apply strict_ne_spec. Qed.

End Values.

(** ** White space and [trim] *)

Section Trim.

Lemma dropWhile_nil {A} (p : A -> bool) (l : list A) :
  dropWhile p l = [] <-> forallb p l = true.
Proof.
  induction l as [|x l IH]; simpl; [tauto|].
  destruct (p x) eqn:E; simpl; [exact IH|].
  split; intros; discriminate.
Qed.

Lemma forallb_dropWhile {A} (p : A -> bool) (l : list A) :
  forallb p (dropWhile p l) = true -> forallb p l = true.
Proof.
  induction l as [|x l IH]; simpl; [tauto|].
  destruct (p x) eqn:E; simpl; [exact IH|].
  rewrite E. simpl. tauto.
Qed.

Lemma forallb_rev {A} (p : A -> bool) (l : list A) :
  forallb p (rev l) = forallb p l.
Proof.
  induction l as [|x l IH]; simpl; [reflexivity|].
  rewrite forallb_app, IH. simpl. rewrite andb_true_r. apply andb_comm.
Qed.

Lemma blank_forallb (s : jsstring) : blank s <-> forallb isWhiteSpace s = true.
Proof.
  unfold blank. induction s as [|c s IH]; simpl.
  - split; [reflexivity|constructor].
  - rewrite Forall_cons, andb_true_iff, IH. reflexivity.
Qed.

Lemma trim_nil (s : jsstring) : trim s = [] <-> blank s.
Proof.
  rewrite blank_forallb. unfold trim, trimEnd, trimStart. split.
  - intros E. apply forallb_dropWhile.
    rewrite <- forallb_rev. apply dropWhile_nil.
    destruct (dropWhile isWhiteSpace (rev (dropWhile isWhiteSpace s)));
      [reflexivity|].
    simpl in E. destruct (rev l); discriminate.
  - intros E. apply dropWhile_nil in E. rewrite E. reflexivity.
Qed.

Lemma truthy_trim (s : jsstring) :
  truthy_string (trim s) = true <-> ~ blank s.
Proof.
  rewrite <- trim_nil. destruct (trim s); simpl; split; intros; congruence.
Qed.

Lemma parseFloat_blank (s : jsstring) : blank s -> parseFloat s = NaN.
Proof.
  intros B. apply blank_forallb, dropWhile_nil in B.
  unfold parseFloat, trimStart. rewrite B. reflexivity.
Qed.

End Trim.

(** ** Rounding and [parseFloat] *)

Section Rounding.

Lemma shr_1_nonneg (mrs : shr_record) :
  0 <= shr_m mrs -> 0 <= shr_m (shr_1 mrs).
Proof.
  destruct mrs as [m r s]. simpl.
  destruct m as [|p|p]; [| destruct p | lia]; simpl; lia.
Qed.

Lemma iter_shr_1_nonneg (p : positive) (mrs : shr_record) :
  0 <= shr_m mrs -> 0 <= shr_m (SpecFloat.iter_pos shr_1 p mrs).
Proof.
  revert mrs. induction p as [p IH|p IH|]; intros mrs N; simpl.
  - apply IH, IH, shr_1_nonneg, N.
  - apply IH, IH, N.
  - apply shr_1_nonneg, N.
Qed.

Lemma shr_fexp_nonneg (m e : Z) (l : location) :
  0 <= m -> 0 <= shr_m (fst (shr_fexp 53 1024 m e l)).
Proof.
  intros N. unfold shr_fexp, shr.
  assert (M : 0 <= shr_m (shr_record_of_loc m l))
    by (destruct l as [|[]]; exact N).
  destruct (_ - e); simpl; [exact M| |exact M].
  apply iter_shr_1_nonneg, M.
Qed.

Lemma round_nearest_even_nonneg (m : Z) (l : location) :
  0 <= m -> 0 <= round_nearest_even m l.
Proof.
  intros N. destruct l as [|[]]; simpl; try lia.
  destruct (Z.even m); lia.
Qed.

Lemma binary_round_aux_not_NaN (neg : bool) (m e : Z) (l : location) :
  0 <= m -> is_NaN (binary_round_aux 53 1024 neg m e l) = false.
Proof.
  intros N. unfold binary_round_aux.
  pose proof (shr_fexp_nonneg m e l N) as M1.
  destruct (shr_fexp 53 1024 m e l) as [mrs' e'].
  pose proof (shr_fexp_nonneg
                (round_nearest_even (shr_m mrs') (loc_of_shr_record mrs'))
                e' loc_Exact
                (round_nearest_even_nonneg _ _ M1)) as M2.
  destruct (shr_fexp 53 1024 _ e' loc_Exact) as [mrs'' e''].
  simpl in M2. destruct (shr_m mrs''); [reflexivity| |lia].
  destruct (_ <=? _); reflexivity.
Qed.

Lemma round_ratio_not_NaN (neg : bool) (p q : Z) :
  0 <= p -> 0 < q -> is_NaN (round_ratio neg p q) = false.
Proof.
  intros P Q. unfold round_ratio. apply binary_round_aux_not_NaN.
  apply Z.div_pos; [|exact Q]. apply Z.mul_nonneg_nonneg; [exact P|].
  apply Z.pow_nonneg. lia.
Qed.

Lemma fold_digits_nonneg (ds : list N) (acc : Z) :
  0 <= acc -> forallb isDigit ds = true ->
  0 <= fold_left (fun a d => 10 * a + (Z.of_N d - 48)) ds acc.
Proof.
  revert acc. induction ds as [|d ds IH]; intros acc A F; [exact A|].
  simpl in *. apply andb_true_iff in F as [D F]. apply IH; [|exact F].
  unfold isDigit in D. apply andb_true_iff in D as [D1 D2].
  apply N.leb_le in D1. lia.
Qed.

Lemma digitsValue_nonneg (ds : list N) :
  forallb isDigit ds = true -> 0 <= digitsValue ds.
Proof. apply fold_digits_nonneg. lia. Qed.

Lemma span_fst {A} (p : A -> bool) (l : list A) :
  forallb p (fst (span p l)) = true.
Proof.
  induction l as [|x l IH]; [reflexivity|]. simpl.
  destruct (p x) eqn:E; [|reflexivity].
  destruct (span p l) as [a b]. simpl in *. rewrite E, IH. reflexivity.
Qed.

Lemma literal_mantissa_nonneg (s : jsstring) (m e : Z) :
  strUnsignedDecimalLiteral s = Some (LitDecimal m e) -> 0 <= m.
Proof.
  unfold strUnsignedDecimalLiteral.
  destruct (startsWith _ s); [discriminate|].
  pose proof (span_fst isDigit s) as I.
  destruct (span isDigit s) as [int r1]. simpl in I.
  assert (G : match int with
              | [] => None
              | _ :: _ => Some (LitDecimal (digitsValue int) (exponentPart r1))
              end = Some (LitDecimal m e) -> 0 <= m).
  { destruct int; [discriminate|]. intros [= <- _].
    apply digitsValue_nonneg, I. }
  destruct r1 as [|c r1]; [exact G|].
  destruct (c =? 46)%N; [|exact G].
  pose proof (span_fst isDigit r1) as F.
  destruct (span isDigit r1) as [frac r2]. simpl in F.
  assert (D : 0 <= digitsValue (int ++ frac)).
  { apply digitsValue_nonneg. rewrite forallb_app, I, F. reflexivity. }
  destruct int, frac; try discriminate; intros [= <- _]; exact D.
Qed.

Lemma roundMV_not_NaN (neg : bool) (m e : Z) :
  0 <= m -> is_NaN (roundMV neg m e) = false.
Proof.
  intros M. unfold roundMV. destruct (0 <=? e) eqn:E.
  - apply round_ratio_not_NaN; [|lia].
    apply Z.mul_nonneg_nonneg; [exact M|]. apply Z.pow_nonneg. lia.
  - apply round_ratio_not_NaN; [exact M|].
    apply Z.pow_pos_nonneg; lia.
Qed.

(** [parseFloat] gives [NaN] exactly when the text has no numeric prefix. *)
Lemma parseFloat_NaN (s : jsstring) : parseFloat s = NaN <-> unparseable s.
Proof.
  unfold parseFloat, unparseable.
  destruct (signedPart (trimStart s)) as [neg u]. simpl.
  destruct (strUnsignedDecimalLiteral u) as [[|m e]|] eqn:L.
  - split; discriminate.
  - pose proof (roundMV_not_NaN neg m e (literal_mantissa_nonneg u m e L)) as R.
    split; [|discriminate]. intros E. rewrite E in R. discriminate R.
  - split; reflexivity.
Qed.

End Rounding.

(** ** CaseReview *)

Section CaseReviewProps.
Import CaseReview.

Lemma cleaned_drops_blank (items : list jsstring) :
  drops_blank items (cleaned items).
Proof.
  induction items as [|x items IH]; [constructor|].
  unfold cleaned in *. rewrite filter_cons.
  destruct (decide _) as [T|T].
  - apply drops_keep; [|exact IH]. apply truthy_trim, Is_true_true, T.
  - apply drops_skip; [|exact IH].
    destruct (decide (blank x)) as [B|B]; [exact B|].
    apply truthy_trim, Is_true_true in B. contradiction.
Qed.

(** C8: a review submission posts the form with the blank entries of its
    three lists dropped and the others kept in order, the other fields as
    entered; the parent's callback runs exactly when the endpoint reports
    success. *)
Theorem review_submit_filters_and_signals (case_id : value)
    (r : outcome Response) (st : State) :
  exists form rest,
    snd (handleSubmit case_id r st) = ReviewCase case_id form :: rest /\
    drops_blank (recommendations (reviewForm st)) (recommendations form) /\
    drops_blank (medications (reviewForm st)) (medications form) /\
    drops_blank (lifestyle_changes (reviewForm st)) (lifestyle_changes form) /\
    diagnosis form = diagnosis (reviewForm st) /\
    form_severity form = form_severity (reviewForm st) /\
    follow_up_required form = follow_up_required (reviewForm st) /\
    (forall e, e ∈ rest -> e = OnReviewed) /\
    (OnReviewed ∈ rest <->
     exists result, r = Resolved result /\ success result = true).
Proof.
  exists (cleanedForm (reviewForm st)).
  destruct r as [result|]; simpl; [destruct (success result) eqn:S|]; simpl.
  - exists [OnReviewed]. repeat split; auto using cleaned_drops_blank.
    + intros e He. apply list_elem_of_singleton in He. exact He.
    + intros _. exists result. auto.
    + intros _. apply list_elem_of_singleton. reflexivity.
  - exists []. repeat split; auto using cleaned_drops_blank.
    + intros e He. inversion He.
    + intros He. inversion He.
    + intros (result' & E & S'). injection E as <-. congruence.
  - exists []. repeat split; auto using cleaned_drops_blank.
    + intros e He. inversion He.
    + intros He. inversion He.
    + intros (result' & E & S'). discriminate.
Qed.

End CaseReviewProps.

(** ** DoctorPatientChat *)

Section ChatProps.
Import DoctorPatientChat.
Variable props : Props.

(** Case analysis over the branches of a handler: the outcome of its
    request, the flags of the answer, the guards. *)
Ltac branches :=
  repeat match goal with
    | |- context [match ?r with Resolved _ => _ | Rejected => _ end] =>
        destruct r
    | |- context [match ?o with Some _ => _ | None => _ end] => destruct o
    | |- context [if ?b then _ else _] => destruct b eqn:?
    end.

Ltac handlers :=
  unfold step, on_new_message, on_user_typing, on_user_joined,
    loadChatMessages, handleSendMessage, handleFileUpload,
    handleStartVideoCall, onChange, handleTyping.

Lemma handleTyping_state (b : bool) (st : State) :
  fst (handleTyping props b st) = set_isTyping st b.
Proof. reflexivity. Qed.

(** C5: with a blank input or without a room id, sending does nothing: no
    request, no emission, the state as it was.  With a non-blank input and a
    room id the trimmed text is sent, and a successful answer clears the
    input and lowers the typing flag. *)
Theorem send_guard_and_success (r : outcome Response) (st : State) :
  (blank (newMessage st) \/ truthy (room_id props) = false ->
   handleSendMessage props r st = (st, [])) /\
  (~ blank (newMessage st) -> truthy (room_id props) = true ->
   exists rest,
     snd (handleSendMessage props r st)
       = SendMessage (room_id props) (trim (newMessage st)) (lit "text")
                     VUndefined :: rest /\
     (forall response, r = Resolved response -> success response = true ->
        newMessage (fst (handleSendMessage props r st)) = [] /\
        isTyping (fst (handleSendMessage props r st)) = false)).
Proof.
  unfold handleSendMessage. split.
  - intros [B|R].
    + apply trim_nil in B. rewrite B. reflexivity.
    + rewrite R, orb_true_r. reflexivity.
  - intros B R. apply truthy_trim in B. rewrite B, R. simpl.
    destruct r as [response|]; [destruct (success response) eqn:S|];
      simpl; eexists; (split; [reflexivity|]).
    + intros _ _ _. split; reflexivity.
    + intros response' E S'. injection E as <-. congruence.
    + intros response' E. discriminate.
Qed.

(** C6: sending leaves the message list as it was, whatever the answer; the
    list grows by one message on a [new_message] event, is replaced by the
    fetched history when the history load succeeds, and is left alone by
    every other event. *)
Theorem send_never_appends (e : event) (st : State) :
  (forall r, messages (fst (handleSendMessage props r st)) = messages st) /\
  messages (fst (step props e st)) = messages_after props e st.
Proof.
  split.
  - intros r. handlers. branches; reflexivity.
  - destruct e; unfold messages_after; handlers; branches;
      try reflexivity; simpl in *; congruence.
Qed.

Lemma kept_others (uid : value) (l : list TypingData) :
  filter (fun u => Is_true (strict_ne (user_id u) uid)) l = others uid l.
Proof. apply list_filter_iff. intros u. apply strict_ne_True. Qed.

Lemma typing_update_others (d : TypingData) (l : list TypingData) :
  typing_update d l
  = if truthy (typing d) then others (user_id d) l ++ [d]
    else others (user_id d) l.
Proof. unfold typing_update. rewrite kept_others. reflexivity. Qed.

Lemma others_invariant (local uid : value) (l : list TypingData) :
  typing_invariant local l -> typing_invariant local (others uid l).
Proof.
  intros [F N]. split.
  - apply Forall_forall. intros u Hu. apply list_elem_of_filter in Hu.
    rewrite Forall_forall in F. apply F, Hu.
  - apply (sublist_NoDup _ (user_id <$> l)); [exact N|].
    apply fmap_sublist, sublist_filter.
Qed.

Lemma others_no_entry (uid : value) (l : list TypingData) :
  uid ∉ user_id <$> others uid l.
Proof.
  intros Hin. apply list_elem_of_fmap in Hin as (u & E & Hu).
  apply list_elem_of_filter in Hu as [Hne _]. congruence.
Qed.

Lemma typing_update_invariant (local : value) (d : TypingData)
    (l : list TypingData) :
  user_id d <> local -> typing_invariant local l ->
  typing_invariant local (typing_update d l).
Proof.
  intros Hd I. rewrite typing_update_others.
  destruct (truthy (typing d)); [|apply others_invariant, I].
  destruct (others_invariant local (user_id d) l I) as [F N]. split.
  - apply Forall_app. split; [exact F|]. repeat constructor. exact Hd.
  - rewrite fmap_app. apply NoDup_app. repeat split.
    + exact N.
    + intros x Hx Hx'. apply list_elem_of_singleton in Hx'. subst x.
      exact (others_no_entry _ _ Hx).
    + apply NoDup_singleton.
Qed.

Lemma step_typing_invariant (e : event) (st : State) :
  typing_invariant (local_user_id props) (typingUsers st) ->
  typing_invariant (local_user_id props)
                   (typingUsers (fst (step props e st))).
Proof.
  intros I. destruct e as [m|d|u| | |r|r|f r|r|v| |text].
  2: { simpl. unfold on_user_typing.
       destruct (strict_ne _ _) eqn:E; [|exact I].
       apply typing_update_invariant; [|exact I]. apply strict_ne_spec, E. }
  all: handlers; branches; exact I.
Qed.

Lemma run_typing_invariant (es : list event) (st : State) :
  typing_invariant (local_user_id props) (typingUsers st) ->
  typing_invariant (local_user_id props) (typingUsers (run props es st)).
Proof.
  revert st. induction es as [|e es IH]; intros st I; [exact I|].
  apply IH, step_typing_invariant, I.
Qed.

Lemma filter_same_others (uid : value) (l : list TypingData) :
  filter (fun u => user_id u = uid) (others uid l) = [].
Proof.
  unfold others. rewrite list_filter_filter.
  induction l as [|u l IH]; [reflexivity|].
  rewrite filter_cons_False; [exact IH|]. intros [E N]. contradiction.
Qed.

Lemma others_idemp (uid : value) (l : list TypingData) :
  others uid (others uid l) = others uid l.
Proof.
  unfold others. rewrite list_filter_filter.
  apply list_filter_iff. intros u. tauto.
Qed.

Lemma others_app (uid : value) (l k : list TypingData) :
  others uid (l ++ k) = others uid l ++ others uid k.
Proof. apply filter_app. Qed.

Lemma others_self (d : TypingData) : others (user_id d) [d] = [].
Proof.
  unfold others. rewrite filter_cons_False; [reflexivity|].
  intros N. apply N. reflexivity.
Qed.

(** C9: along every run of events from an empty typing list, no entry is the
    local user's and no user id occurs twice.  An event of a remote user
    with [typing] set leaves exactly its own payload as that user's entry,
    one with [typing] unset leaves no entry for that user; the entries of
    the other users stay as they were. *)
Theorem typing_list_invariant (es : list event) (st : State) :
  typingUsers st = [] ->
  typing_invariant (local_user_id props) (typingUsers (run props es st)) /\
  (forall (d : TypingData) (st' : State),
     user_id d <> local_user_id props ->
     let after := typingUsers (on_user_typing props d st') in
     filter (fun u => user_id u = user_id d) after
       = (if truthy (typing d) then [d] else []) /\
     others (user_id d) after = others (user_id d) (typingUsers st')).
Proof.
  intros E. split.
  - apply run_typing_invariant. rewrite E. split; constructor.
  - intros d st' Hd after. subst after. unfold on_user_typing.
    apply strict_ne_spec in Hd. rewrite Hd. simpl.
    rewrite typing_update_others.
    destruct (truthy (typing d)).
    + rewrite filter_app, filter_same_others. split.
      * rewrite filter_cons_True; reflexivity.
      * rewrite others_app, others_idemp, others_self. apply app_nil_r.
    + split; [apply filter_same_others|apply others_idemp].
Qed.

End ChatProps.

Section ChatExamples.
Import DoctorPatientChat.

Lemma send_guard_and_success_witness :
  handleSendMessage room1 (Resolved {| success := true |})
    (set_newMessage initial (lit "  "))
  = (set_newMessage initial (lit "  "), []) /\
  newMessage (fst (handleSendMessage room1 (Resolved {| success := true |})
                     (set_newMessage initial (lit " ok ")))) = [].
Proof.
  split.
  - apply send_guard_and_success. left. repeat constructor.
  - destruct (proj2 (send_guard_and_success room1
                       (Resolved {| success := true |})
                       (set_newMessage initial (lit " ok "))))
      as (rest & _ & H).
    + intros B. apply blank_forallb in B. vm_compute in B. discriminate.
    + reflexivity.
    + apply (H {| success := true |}); reflexivity.
Defined.

End ChatExamples.

(** ** PatientDashboard *)

Section PatientDashboardProps.
Import PatientDashboard.

(** C10: switching tabs stores the target id, clears the displayed result
    exactly when the target is not ['predict'], and touches neither the
    stats nor the loading flags. *)
Theorem tab_change_frame (tabId : value) (st : State) :
  activeTab (handleTabChange tabId st) = tabId /\
  (tabId <> VStr (lit "predict") ->
   currentResult (handleTabChange tabId st) = None) /\
  (tabId = VStr (lit "predict") ->
   currentResult (handleTabChange tabId st) = currentResult st) /\
  stats (handleTabChange tabId st) = stats st /\
  loading (handleTabChange tabId st) = loading st /\
  statsLoading (handleTabChange tabId st) = statsLoading st.
Proof.
  repeat split; simpl.
  - intros N. apply strict_ne_spec in N. rewrite N. reflexivity.
  - intros ->. reflexivity.
Qed.

Context `{Host}.

(** C7, as amended: a failed stats fetch is swallowed, with console output
    only, and the stats are replaced by the mock stats built from the clock
    and four random draws, whatever they were before; [statsLoading] is
    lowered and nothing else changes. *)
Theorem failed_fetch_shows_mock_stats (now : number) (d : Draws)
    (r : outcome StatsResponse) (st : State) :
  fetch_failed r ->
  stats (fst (loadPatientStats now d r st)) = mockStats now d /\
  totalModels (stats (fst (loadPatientStats now d r st))) = of_Z 5 /\
  statsLoading (fst (loadPatientStats now d r st)) = false /\
  activeTab (fst (loadPatientStats now d r st)) = activeTab st /\
  currentResult (fst (loadPatientStats now d r st)) = currentResult st /\
  loading (fst (loadPatientStats now d r st)) = loading st /\
  Forall (fun e => e = GetPatientStats \/ e = ConsoleLog \/ e = ConsoleWarn)
         (snd (loadPatientStats now d r st)).
Proof.
  intros F. destruct r as [result|]; simpl in *; [rewrite F|];
    repeat split; try reflexivity;
    simpl; repeat (constructor; [auto|]); constructor.
Qed.

End PatientDashboardProps.

Section PatientDashboardExamples.
Import PatientDashboard.

Lemma tab_change_frame_witness :
  currentResult (handleTabChange (VStr (lit "history")) initial) = None.
Proof.
  destruct (tab_change_frame (VStr (lit "history")) initial)
    as (_ & Clears & _).
  apply Clears. discriminate.
Defined.

(** C7, as stated, fails on the freshly mounted dashboard when the call
    throws: the stats shown afterwards are the mock ones. *)
Lemma stats_not_kept_on_failure :
  ~ stats_kept_on_failure epoch_day_host (of_Z 0) zero_draws Rejected initial.
Proof.
  intros K. specialize (K I). vm_compute in K. discriminate K.
Qed.

Lemma failed_fetch_shows_mock_stats_witness :
  fetch_failed (Rejected : outcome StatsResponse) /\
  stats (fst (loadPatientStats (H := epoch_day_host) (of_Z 0) zero_draws
                Rejected initial))
  = mockStats (H := epoch_day_host) (of_Z 0) zero_draws.
Proof.
  split; [exact I|].
  apply (failed_fetch_shows_mock_stats (H := epoch_day_host)). exact I.
Defined.

End PatientDashboardExamples.

(** ** DoctorDashboard and ConsultationManager *)

Section ConsultationProps.
Context `{Host}.

Lemma count_today (today : jsstring) (l : list Consultation) :
  length (filter (fun c => Is_true (DoctorDashboard.requested_today today c)) l)
  = count_occ (List.list_eq_dec N.eq_dec) (rendered_dates l) today.
Proof.
  induction l as [|c l IH]; [reflexivity|].
  rewrite filter_cons. unfold rendered_dates in *. simpl.
  unfold DoctorDashboard.requested_today at 1.
  destruct (List.list_eq_dec N.eq_dec _ today) as [E|E].
  - rewrite decide_True by (apply Is_true_true, bool_decide_eq_true, E).
    simpl. rewrite IH. reflexivity.
  - rewrite decide_False; [exact IH|].
    intros T. apply Is_true_true, bool_decide_eq_true in T. contradiction.
Qed.

(** C1: the [todayAppointments] counter is the number of consultations
    whose requested date renders to the date string of the current time (an
    [undefined] list counts as empty). *)
Theorem today_appointments_count (now : number)
    (consultations : option (list Consultation))
    (cases : option (list DoctorDashboard.Case)) :
  DoctorDashboard.todayAppointments
    (DoctorDashboard.updateStats now consultations cases)
  = count_occ (List.list_eq_dec N.eq_dec)
              (rendered_dates (default [] consultations)) (toDateString now).
Proof. unfold DoctorDashboard.updateStats. simpl. apply count_today. Qed.

Lemma patch_status_patched (consultationId newStatus : value)
    (l : list Consultation) :
  status_patched consultationId newStatus l
                 (patch_status consultationId newStatus l).
Proof.
  unfold status_patched, patch_status.
  induction l as [|c l IH]; simpl; constructor; [|exact IH].
  unfold strict_eq. destruct (decide (id c = consultationId)) as [E|E].
  - rewrite bool_decide_eq_true_2 by exact E.
    unfold same_but_status. simpl. tauto.
  - rewrite bool_decide_eq_false_2 by exact E. reflexivity.
Qed.

(** C2: in both components, when the update request is made and reports
    success the records with the given id get the new status and nothing
    else in the list changes; in every other case (failure, a throw, or the
    manager's refusal of a falsy id, for which no request is made) the list
    is left as it was. *)
Theorem status_update_patches_or_keeps (snap st : DoctorDashboard.State)
    (m : ConsultationManager.State) (consultationId newStatus : value)
    (now : number) (r : outcome UpdateResponse) :
  let dash :=
    DoctorDashboard.handleStatusUpdate snap consultationId newStatus now r st in
  let mgr :=
    ConsultationManager.handleStatusUpdate consultationId newStatus r m in
  (reports_success (snd dash) r ->
   status_patched consultationId newStatus
     (DoctorDashboard.consultations st)
     (DoctorDashboard.consultations (fst dash))) /\
  (~ reports_success (snd dash) r ->
   DoctorDashboard.consultations (fst dash)
   = DoctorDashboard.consultations st) /\
  (reports_success (snd mgr) r ->
   status_patched consultationId newStatus
     (ConsultationManager.consultations m)
     (ConsultationManager.consultations (fst mgr))) /\
  (~ reports_success (snd mgr) r ->
   ConsultationManager.consultations (fst mgr)
   = ConsultationManager.consultations m) /\
  snd dash = [UpdateConsultationStatus consultationId newStatus] /\
  snd mgr = (if truthy consultationId
             then [UpdateConsultationStatus consultationId newStatus]
             else []).
Proof.
  intros dash mgr. subst dash mgr.
  unfold DoctorDashboard.handleStatusUpdate,
    ConsultationManager.handleStatusUpdate, reports_success.
  destruct (truthy consultationId);
    (destruct r as [response|];
     [destruct (update_success response) eqn:S|]); simpl;
    repeat split;
    try (intros _; apply patch_status_patched);
    try (intros (_ & response' & E & S'); injection E as <-; congruence);
    try (intros (_ & response' & E & S'); discriminate);
    try (intros (N & _); contradiction);
    try (intros N; exfalso; apply N; split; [discriminate|eauto]).
Qed.

End ConsultationProps.

Section ConsultationExamples.

Lemma status_update_patches_or_keeps_witness :
  DoctorDashboard.consultations
    (fst (DoctorDashboard.handleStatusUpdate (H := epoch_day_host)
            DoctorDashboard.initial (VNum 3) (VStr (lit "confirmed"))
            (of_Z 0) Rejected
            (DoctorDashboard.set_consultations_stats DoctorDashboard.initial
               [consultation_on 3 20759 (lit "pending")]
               (DoctorDashboard.stats DoctorDashboard.initial))))
  = [consultation_on 3 20759 (lit "pending")].
Proof.
  destruct (status_update_patches_or_keeps (H := epoch_day_host)
              DoctorDashboard.initial
              (DoctorDashboard.set_consultations_stats DoctorDashboard.initial
                 [consultation_on 3 20759 (lit "pending")]
                 (DoctorDashboard.stats DoctorDashboard.initial))
              ConsultationManager.initial (VNum 3) (VStr (lit "confirmed"))
              (of_Z 0) Rejected) as (_ & Keeps & _).
  apply Keeps. intros (_ & response & E & _). discriminate E.
Defined.

End ConsultationExamples.

(** ** PredictionForm *)

Section PredictionFormProps.
Import PredictionForm.

Lemma commit_selected (st : State) :
  selectedDisease (commit st) = selectedDisease st.
Proof. unfold commit. destruct (bool_decide _); reflexivity. Qed.

Lemma commit_deps (st : State) :
  resetDeps (commit st) = Some (selectedDisease st).
Proof.
  unfold commit. destruct (bool_decide _) eqn:E; [|reflexivity].
  apply bool_decide_eq_true in E. exact E.
Qed.

Lemma commit_changed (st : State) :
  resetDeps st <> Some (selectedDisease st) -> formData (commit st) = ∅.
Proof.
  intros N. unfold commit. rewrite bool_decide_eq_false_2 by exact N.
  reflexivity.
Qed.

Lemma commit_same (st : State) :
  resetDeps st = Some (selectedDisease st) -> commit st = st.
Proof.
  intros E. unfold commit. rewrite bool_decide_eq_true_2 by exact E.
  reflexivity.
Qed.

Lemma select_selected (disease : jsstring) (st : State) :
  selectedDisease (handleDiseaseSelect disease st) = disease /\
  resetDeps (handleDiseaseSelect disease st) = Some disease.
Proof.
  unfold handleDiseaseSelect. rewrite commit_selected, commit_deps. auto.
Qed.

Lemma input_keeps_selected (k : jsstring) (v : formval) (st : State) :
  resetDeps st = Some (selectedDisease st) ->
  handleInputChange k v st
  = {| selectedDisease := selectedDisease st;
       formData := <[k := v]> (formData st);
       loading := loading st; diseaseInfo := diseaseInfo st;
       isLoadingInfo := isLoadingInfo st; error := error st;
       predictionResult := predictionResult st; resetDeps := resetDeps st |}.
Proof. intros E. unfold handleInputChange. apply commit_same. exact E. Qed.

(** Under a selected disease, an entered value is stored under its field. *)
Lemma input_stores (k : jsstring) (v : formval) (st : State) :
  resetDeps st = Some (selectedDisease st) ->
  formData (handleInputChange k v st) !! k = Some v.
Proof.
  intros E. rewrite input_keeps_selected by exact E. simpl.
  apply lookup_insert_eq.
Qed.

(** C4: select A, enter values, select another disease B, select A again:
    the form is empty (and A is selected). *)
Theorem reselect_gives_empty_form (A B : jsstring)
    (entries : list (jsstring * formval)) (st : State) :
  A <> B ->
  formData (handleDiseaseSelect A
              (handleDiseaseSelect B
                 (enter entries (handleDiseaseSelect A st)))) = ∅ /\
  selectedDisease (handleDiseaseSelect A
                     (handleDiseaseSelect B
                        (enter entries (handleDiseaseSelect A st)))) = A.
Proof.
  intros N. split; [|apply select_selected].
  set (s := handleDiseaseSelect B _).
  destruct (select_selected B (enter entries (handleDiseaseSelect A st)))
    as [_ D]. fold s in D.
  unfold handleDiseaseSelect. apply commit_changed. simpl.
  rewrite D. congruence.
Qed.

Lemma numValue_not_NaN (v : formval) : is_NaN (numValue v) = false.
Proof.
  unfold numValue. destruct (parseFloat (toString v)); reflexivity.
Qed.

Lemma numValue_coerced (data : gmap jsstring formval) (f : Field) :
  coerced (data !! name f) (numValue (formValue data f)).
Proof.
  unfold coerced, numValue, formValue, entered_text.
  destruct (data !! name f) as [v|]; simpl.
  - destruct (parseFloat (toString v)); reflexivity.
  - reflexivity.
Qed.

Lemma numValue_missing_or_blank (data : gmap jsstring formval) (f : Field) :
  missing_or_blank (data !! name f) -> numValue (formValue data f) = pos_zero.
Proof.
  unfold numValue, formValue.
  intros [E|[E|(s & E & B)]]; rewrite E; simpl; try reflexivity.
  rewrite (parseFloat_blank s B). reflexivity.
Qed.

Lemma numValue_unparseable (data : gmap jsstring formval) (f : Field) :
  unparseable (entered_text (data !! name f)) ->
  numValue (formValue data f) = pos_zero.
Proof.
  intros U. apply parseFloat_NaN in U. revert U.
  unfold numValue, formValue, entered_text.
  destruct (data !! name f) as [v|]; simpl; [|reflexivity].
  intros ->. reflexivity.
Qed.

Lemma numValue_infinite (data : gmap jsstring formval) (f : Field) :
  is_finite (numValue (formValue data f)) = false ->
  exists neg, parseFloat (entered_text (data !! name f)) = S754_infinity neg.
Proof.
  unfold numValue, formValue, entered_text.
  destruct (data !! name f) as [v|]; simpl; [|discriminate].
  destruct (parseFloat (toString v)) as [| neg | |]; simpl;
    try discriminate.
  intros _. exists neg. reflexivity.
Qed.

Lemma submit_sends_features (onResult : bool) (r : outcome Response)
    (st : State) (disease : Disease) :
  diseaseInfo st !! selectedDisease st = Some disease ->
  exists rest,
    snd (handleSubmit onResult r st)
      = PredictDisease (selectedDisease st) (features disease (formData st))
          :: rest /\
    forall d fs, PredictDisease d fs ∉ rest.
Proof.
  intros D. unfold handleSubmit. rewrite D.
  destruct r as [result|]; simpl.
  - destruct (success result), (resp_prediction result), onResult; simpl;
      eexists; (split; [reflexivity|]); intros d fs' In;
      repeat (inversion In as [|? ? ? In']; subst; clear In;
              rename In' into In).
  - exists []. split; [reflexivity|]. intros d fs' In. inversion In.
Qed.

(** C3, as amended: a submission sends one prediction request, for the
    selected disease (none when the catalog has no such disease); its
    feature vector has the length of the disease's field schema; the entry
    of each field, in schema order, is the numeric parse of what the form
    holds under the field's name, with [+0] in place of a parse that is
    [NaN] or a zero.  So no entry is [NaN]; a missing, blank or unparseable
    value gives [+0]; and an entry is infinite only when the parse itself
    is. *)
Theorem submitted_features (onResult : bool) (r : outcome Response)
    (st : State) :
  (diseaseInfo st !! selectedDisease st = None ->
   snd (handleSubmit onResult r st) = []) /\
  (forall disease,
     diseaseInfo st !! selectedDisease st = Some disease ->
     exists fs rest,
       snd (handleSubmit onResult r st)
         = PredictDisease (selectedDisease st) fs :: rest /\
       (forall d fs', PredictDisease d fs' ∉ rest) /\
       length fs = length (fields disease) /\
       forall i field, fields disease !! i = Some field ->
         exists x, fs !! i = Some x /\
                   coerced (formData st !! name field) x /\
                   is_NaN x = false /\
                   (missing_or_blank (formData st !! name field) \/
                    unparseable (entered_text (formData st !! name field)) ->
                    x = pos_zero) /\
                   (is_finite x = false ->
                    exists neg,
                      parseFloat (entered_text (formData st !! name field))
                      = S754_infinity neg)).
Proof.
  split.
  - intros D. unfold handleSubmit. rewrite D. reflexivity.
  - intros disease D.
    destruct (submit_sends_features onResult r st disease D)
      as (rest & R & Once).
    exists (features disease (formData st)), rest.
    split; [exact R|]. split; [exact Once|]. split.
    + unfold features. apply length_map.
    + intros i field F. exists (numValue (formValue (formData st) field)).
      unfold features. split.
      * rewrite list_lookup_fmap, F. reflexivity.
      * repeat split;
          auto using numValue_coerced, numValue_not_NaN, numValue_infinite.
        intros [M|U];
          auto using numValue_missing_or_blank, numValue_unparseable.
Qed.

Lemma enter_deps (entries : list (jsstring * formval)) (st : State) :
  resetDeps st = Some (selectedDisease st) ->
  resetDeps (enter entries st) = Some (selectedDisease (enter entries st)).
Proof.
  revert st. induction entries as [|[k v] entries IH]; intros st E;
    [exact E|].
  simpl. apply IH. rewrite input_keeps_selected by exact E. exact E.
Qed.

(** The last value entered is in the form before the selection changes. *)
Lemma enter_last_stored (entries : list (jsstring * formval))
    (k : jsstring) (v : formval) (st : State) :
  resetDeps st = Some (selectedDisease st) ->
  formData (enter (entries ++ [(k, v)]) st) !! k = Some v.
Proof.
  intros E. unfold enter. rewrite fold_left_app. simpl.
  apply input_stores. apply (enter_deps entries st E).
Qed.

End PredictionFormProps.

Section PredictionFormExamples.
Import PredictionForm.

Lemma reselect_gives_empty_form_witness :
  lit "anemia" <> lit "diabetes" /\
  formData (handleDiseaseSelect (lit "anemia")
              (handleDiseaseSelect (lit "diabetes")
                 (enter [(lit "hemoglobin", FStr (lit "13.5"))]
                    (handleDiseaseSelect (lit "anemia") initial)))) = ∅.
Proof.
  split; [discriminate|].
  apply (reselect_gives_empty_form (lit "anemia") (lit "diabetes")).
  discriminate.
Defined.

(** C3, as stated, fails when the text of a field is [Infinity]: the
    feature sent is the infinite Number. *)
Lemma infinite_feature_submitted :
  ~ features_all_finite true Rejected (anemia_form (lit "Infinity")).
Proof.
  intros F.
  specialize (F (lit "anemia") [S754_infinity false]).
  assert (In : PredictDisease (lit "anemia") [S754_infinity false]
               ∈ snd (handleSubmit true Rejected (anemia_form (lit "Infinity")))).
  { replace (snd (handleSubmit true Rejected (anemia_form (lit "Infinity"))))
      with [PredictDisease (lit "anemia") [S754_infinity false]]
      by (vm_compute; reflexivity).
    apply list_elem_of_here. }
  apply F in In. inversion In as [|x l Fin _]. discriminate Fin.
Qed.

Lemma submitted_features_witness :
  exists fs rest,
    snd (handleSubmit true Rejected (anemia_form (lit " ")))
      = PredictDisease (lit "anemia") fs :: rest /\ length fs = 1%nat.
Proof.
  destruct (submitted_features true Rejected (anemia_form (lit " ")))
    as [_ Sent].
  destruct (Sent anemia) as (fs & rest & E & _ & L & _).
  - vm_compute. reflexivity.
  - exists fs, rest. split; [exact E|exact L].
Defined.

End PredictionFormExamples.

Section MoreExamples.
Import DoctorPatientChat.

Lemma typing_list_invariant_witness :
  typing_invariant (VNum 1)
    (typingUsers
       (run room1
          [UserTyping {| user_id := VNum 2; typing := VBool true |};
           UserTyping {| user_id := VNum 1; typing := VBool true |};
           UserTyping {| user_id := VNum 2; typing := VBool true |};
           UserTyping {| user_id := VNum 3; typing := VBool true |};
           UserTyping {| user_id := VNum 2; typing := VBool false |}]
          initial)).
Proof.
  apply (typing_list_invariant room1). reflexivity.
Defined.

End MoreExamples.

(** ** The model on concrete inputs *)

Section Evaluation.

Example trim_both_ends : trim (lit "  a b  ") = lit "a b".
Proof. reflexivity. Qed.

Example parseFloat_decimal :
  parseFloat (lit "13.5") = S754_finite false 7599824371187712 (-49).
Proof. vm_compute. reflexivity. Qed.

Example parseFloat_prefix :
  parseFloat (lit "  -12.25e1abc") = S754_finite true 8620171161763840 (-46).
Proof. vm_compute. reflexivity. Qed.

Example parseFloat_tenth :
  parseFloat (lit "0.1") = S754_finite false 7205759403792794 (-56).
Proof. vm_compute. reflexivity. Qed.

Example parseFloat_tie_to_even :
  parseFloat (lit "9007199254740993") = S754_finite false 4503599627370496 1.
Proof. vm_compute. reflexivity. Qed.

Example parseFloat_overflow : parseFloat (lit "1e999") = S754_infinity false.
Proof. vm_compute. reflexivity. Qed.

Example parseFloat_underflow : parseFloat (lit "-1e-999") = S754_zero true.
Proof. vm_compute. reflexivity. Qed.

Example parseFloat_no_digits : parseFloat (lit ".") = NaN.
Proof. vm_compute. reflexivity. Qed.

Example parseFloat_words : parseFloat (lit "undefined") = NaN.
Proof. vm_compute. reflexivity. Qed.

Example features_of_text :
  PredictionForm.features anemia
    (PredictionForm.formData (anemia_form (lit " 13.5 g/dL")))
  = [S754_finite false 7599824371187712 (-49)].
Proof. vm_compute. reflexivity. Qed.

Example features_of_blank :
  PredictionForm.features anemia (PredictionForm.formData (anemia_form (lit "  ")))
  = [pos_zero].
Proof. vm_compute. reflexivity. Qed.

Example features_of_missing : PredictionForm.features anemia ∅ = [pos_zero].
Proof. vm_compute. reflexivity. Qed.

Example features_of_large_exponent :
  PredictionForm.features anemia
    (PredictionForm.formData (anemia_form (lit "1e999")))
  = [S754_infinity false].
Proof. vm_compute. reflexivity. Qed.

Example cleaned_entries :
  CaseReview.cleaned
    [lit "rest"; lit "  "; []; lit " drink water "; [160; 12288]%N]
  = [lit "rest"; lit " drink water "].
Proof. vm_compute. reflexivity. Qed.

Example stats_of_three :
  DoctorDashboard.updateStats (H := epoch_day_host)
    (of_Z (20759 * 86400000 + 3600000))
    (Some [consultation_on 1 20759 (lit "pending");
           consultation_on 2 20758 (lit "completed");
           consultation_on 3 20759 (lit "completed")]) None
  = {| DoctorDashboard.totalPatients := 3;
       DoctorDashboard.todayAppointments := 2;
       DoctorDashboard.pendingReviews := 0;
       DoctorDashboard.completedConsultations := 2 |}.
Proof. vm_compute. reflexivity. Qed.

Example patched_one :
  patch_status (VNum 3) (VStr (lit "confirmed"))
    [consultation_on 1 20759 (lit "pending");
     consultation_on 3 20759 (lit "pending")]
  = [consultation_on 1 20759 (lit "pending");
     consultation_on 3 20759 (lit "confirmed")].
Proof. vm_compute. reflexivity. Qed.

Example mock_stats_top_draws :
  PatientDashboard.totalPredictions
    (PatientDashboard.mockStats (H := epoch_day_host) (of_Z 0)
       {| PatientDashboard.draw1 := parseFloat (lit "0.9999999999999999");
          PatientDashboard.draw2 := pos_zero;
          PatientDashboard.draw3 := pos_zero;
          PatientDashboard.draw4 := pos_zero |})
  = of_Z 15.
Proof. vm_compute. reflexivity. Qed.

Example typing_replaced :
  DoctorPatientChat.typingUsers
    (DoctorPatientChat.run room1
       [DoctorPatientChat.UserTyping
          {| DoctorPatientChat.user_id := VNum 2;
             DoctorPatientChat.typing := VBool true |};
        DoctorPatientChat.UserTyping
          {| DoctorPatientChat.user_id := VNum 3;
             DoctorPatientChat.typing := VBool true |};
        DoctorPatientChat.UserTyping
          {| DoctorPatientChat.user_id := VNum 2;
             DoctorPatientChat.typing := VNum 1 |};
        DoctorPatientChat.UserTyping
          {| DoctorPatientChat.user_id := VNum 3;
             DoctorPatientChat.typing := VBool false |}]
       DoctorPatientChat.initial)
  = [{| DoctorPatientChat.user_id := VNum 2;
        DoctorPatientChat.typing := VNum 1 |}].
Proof. vm_compute. reflexivity. Qed.

End Evaluation.

(** * Further properties of the components *)

(** Membership in a short explicit list, refuted constructor by
    constructor. *)
Ltac no_member H :=
  repeat (let H' := fresh in
          inversion H as [|? ? ? H']; subst; clear H; rename H' into H).

(** ** CaseReview: editing the lists *)

Section CaseReviewEditing.
Import CaseReview.

Lemma items_with_items (field : list_field) (l : list jsstring)
    (f : ReviewForm) : items field (with_items field l f) = l.
Proof. destruct field; reflexivity. Qed.

Lemma with_items_twice (field : list_field) (l k : list jsstring)
    (f : ReviewForm) :
  with_items field l (with_items field k f) = with_items field l f.
Proof. destruct field; reflexivity. Qed.

Lemma with_items_same (field : list_field) (f : ReviewForm) :
  with_items field (items field f) f = f.
Proof. destruct field, f; reflexivity. Qed.

Lemma items_other (field field' : list_field) (l : list jsstring)
    (f : ReviewForm) :
  field' <> field -> items field' (with_items field l f) = items field' f.
Proof. destruct field, field'; intros N; try reflexivity; contradiction. Qed.

Lemma filter_index_ext {A} (keep keep' : nat -> bool) (i : nat)
    (l : list A) :
  (forall j, keep j = keep' j) ->
  filter_index keep i l = filter_index keep' i l.
Proof.
  intros E. revert i. induction l as [|x l IH]; intros i; [reflexivity|].
  simpl. rewrite E, IH. reflexivity.
Qed.

Lemma filter_index_all {A} (keep : nat -> bool) (i : nat) (l : list A) :
  (forall j, (i <= j)%nat -> keep j = true) -> filter_index keep i l = l.
Proof.
  revert i. induction l as [|x l IH]; intros i K; [reflexivity|].
  simpl. rewrite K by lia. rewrite IH; [reflexivity|].
  intros j J. apply K. lia.
Qed.

Lemma filter_index_delete {A} (index i : nat) (l : list A) :
  filter_index (fun j => negb (j =? i + index)%nat) i l = delete index l.
Proof.
  revert index i. induction l as [|x l IH]; intros index i;
    [destruct index; reflexivity|].
  simpl. destruct index as [|index].
  - rewrite Nat.add_0_r, Nat.eqb_refl. simpl.
    apply filter_index_all. intros j J.
    apply negb_true_iff, Nat.eqb_neq. lia.
  - replace (i =? i + S index)%nat with false
      by (symmetry; apply Nat.eqb_neq; lia).
    simpl. f_equal. rewrite <- (IH index (S i)).
    apply filter_index_ext. intros j. f_equal. f_equal. lia.
Qed.

Lemma filter_index_delete_0 {A} (index : nat) (l : list A) :
  filter_index (fun j => negb (j =? index)%nat) 0 l = delete index l.
Proof. exact (filter_index_delete index 0 l). Qed.

Lemma removeItem_items (field : list_field) (index : nat) (st : State) :
  items field (reviewForm (removeItem field index st))
  = delete index (items field (reviewForm st)).
Proof.
  unfold removeItem. simpl. rewrite items_with_items.
  apply filter_index_delete_0.
Qed.

Lemma delete_ge {A} (l : list A) (i : nat) :
  (length l <= i)%nat -> delete i l = l.
Proof.
  revert i. induction l as [|x l IH]; intros i L; [destruct i; reflexivity|].
  destruct i as [|i]; simpl in *; [lia|]. rewrite IH by lia. reflexivity.
Qed.

Lemma delete_last {A} (l : list A) (x : A) : delete (length l) (l ++ [x]) = l.
Proof. induction l as [|y l IH]; simpl; [reflexivity|]. rewrite IH. reflexivity. Qed.

(** X1: Removing the row that [addItem] has just added gives the form back. *)
Theorem remove_added_item (field : list_field) (st : State) :
  removeItem field (length (items field (reviewForm st))) (addItem field st)
  = st.
Proof.
  unfold removeItem at 1. rewrite filter_index_delete_0.
  unfold addItem. simpl. rewrite items_with_items, delete_last.
  rewrite with_items_twice, with_items_same. destruct st; reflexivity.
Qed.

(** X2: [removeItem] deletes the row at the index and keeps the others in
    order; an index past the last row changes nothing.  The other lists and
    fields of the form are untouched. *)
Theorem removeItem_deletes_row (field : list_field) (index : nat)
    (st : State) :
  items field (reviewForm (removeItem field index st))
    = take index (items field (reviewForm st))
      ++ drop (S index) (items field (reviewForm st)) /\
  ((length (items field (reviewForm st)) <= index)%nat ->
   removeItem field index st = st) /\
  (forall field', field' <> field ->
     items field' (reviewForm (removeItem field index st))
     = items field' (reviewForm st)) /\
  diagnosis (reviewForm (removeItem field index st))
    = diagnosis (reviewForm st) /\
  form_severity (reviewForm (removeItem field index st))
    = form_severity (reviewForm st) /\
  follow_up_required (reviewForm (removeItem field index st))
    = follow_up_required (reviewForm st).
Proof.
  split; [|split; [|split]].
  - rewrite removeItem_items. apply delete_take_drop.
  - intros L. unfold removeItem. rewrite filter_index_delete_0.
    rewrite delete_ge by exact L. rewrite with_items_same.
    destruct st; reflexivity.
  - intros field' N. unfold removeItem. simpl. apply items_other, N.
  - unfold removeItem. destruct field; repeat split; reflexivity.
Qed.

Lemma cleaned_app (l k : list jsstring) :
  cleaned (l ++ k) = cleaned l ++ cleaned k.
Proof. apply filter_app. Qed.

Lemma cleanedForm_with_items (field : list_field) (l : list jsstring)
    (f : ReviewForm) :
  cleaned l = cleaned (items field f) ->
  cleanedForm (with_items field l f) = cleanedForm f.
Proof. destruct field; simpl; unfold cleanedForm; simpl; intros ->; reflexivity. Qed.

(** X3: Rows that were added and left empty never reach the endpoint: whatever
    the number of [addItem]s, the submission sends the same form and has
    the same effects. *)
Theorem added_empty_rows_not_posted (fields : list list_field)
    (case_id : value) (r : outcome Response) (st : State) :
  cleanedForm (reviewForm (foldr addItem st fields))
    = cleanedForm (reviewForm st) /\
  snd (handleSubmit case_id r (foldr addItem st fields))
    = snd (handleSubmit case_id r st).
Proof.
  assert (C : cleanedForm (reviewForm (foldr addItem st fields))
              = cleanedForm (reviewForm st)).
  { induction fields as [|field fields IH]; [reflexivity|].
    simpl. rewrite <- IH. apply cleanedForm_with_items.
    rewrite cleaned_app. apply app_nil_r. }
  split; [exact C|].
  unfold handleSubmit. rewrite C.
  destruct r as [result|]; [destruct (success result)|]; reflexivity.
Qed.

(** X4: [updateItem] on an existing row stores the value there, leaves the
    other rows, the other lists and the other fields as they were; past the
    end of the list by more than one row the array would get holes. *)
Theorem updateItem_stores (field : list_field) (index : nat) (v : jsstring)
    (st : State) :
  (index < length (items field (reviewForm st)))%nat ->
  exists st',
    updateItem field index v st = Some st' /\
    items field (reviewForm st') !! index = Some v /\
    length (items field (reviewForm st'))
      = length (items field (reviewForm st)) /\
    (forall j, j <> index ->
       items field (reviewForm st') !! j
       = items field (reviewForm st) !! j) /\
    (forall field', field' <> field ->
       items field' (reviewForm st') = items field' (reviewForm st)) /\
    loading st' = loading st /\ error st' = error st.
Proof.
  intros L. unfold updateItem.
  rewrite (proj2 (Nat.ltb_lt _ _) L). eexists. split; [reflexivity|].
  simpl. rewrite items_with_items. repeat split.
  - apply list_lookup_insert_eq, L.
  - apply length_insert.
  - intros j N. apply list_lookup_insert_ne. congruence.
  - intros field' N. apply items_other, N.
Qed.

(** X5: A submission never touches the form: after a failure the doctor finds
    every entry as typed, blank rows included, with [loading] lowered and
    the fixed message when the request threw. *)
Theorem review_submit_keeps_form (case_id : value) (r : outcome Response)
    (st : State) :
  reviewForm (fst (handleSubmit case_id r st)) = reviewForm st /\
  loading (fst (handleSubmit case_id r st)) = false /\
  (r = Rejected ->
   error (fst (handleSubmit case_id r st))
   = VStr (lit "Failed to submit review. Please try again.")) /\
  (forall result, r = Resolved result -> success result = false ->
     error (fst (handleSubmit case_id r st)) = resp_error result).
Proof.
  destruct r as [result|]; simpl; [destruct (success result) eqn:S|];
    simpl; repeat split; try discriminate; try reflexivity.
  - intros result' [= <-] S'. congruence.
  - intros result' [= <-] _. reflexivity.
Qed.

End CaseReviewEditing.

(** ** PatientHistory and Results: what is listed and how it is printed *)

Section HistoryProps.
Import PatientHistory.

Lemma shown_all (item : Item) : shown (lit "all") item = true.
Proof. reflexivity. Qed.

Lemma shown_reviewed (item : Item) :
  shown (lit "reviewed") item = bool_decide (status item = lit "reviewed").
Proof. reflexivity. Qed.

Lemma shown_pending (item : Item) :
  shown (lit "pending") item
  = bool_decide (status item = lit "pending_review").
Proof. reflexivity. Qed.

Lemma shown_disease (f : jsstring) (item : Item) :
  f <> lit "all" -> f <> lit "reviewed" -> f <> lit "pending" ->
  shown f item = bool_decide (disease item = f).
Proof.
  intros A R P. unfold shown.
  rewrite !bool_decide_eq_false_2 by assumption. reflexivity.
Qed.

Lemma filter_disjoint_length {A} (P Q : A -> Prop)
    `{!forall x, Decision (P x), !forall x, Decision (Q x)} (l : list A) :
  (forall x, P x -> Q x -> False) ->
  (length (base.filter P l) + length (base.filter Q l) <= length l)%nat.
Proof.
  intros D. induction l as [|x l IH]; [reflexivity|].
  rewrite !filter_cons.
  destruct (decide (P x)) as [p|], (decide (Q x)) as [q|]; simpl; try lia.
  destruct (D x p q).
Qed.

(** X6: The filter ['all'] lists the whole history; the views ['reviewed'] and
    ['pending'] share no record, and together they list no more records
    than the history has. *)
Theorem history_status_views (st : State) :
  filteredHistory (setFilter (lit "all") st) = history st /\
  (forall item, item ∈ filteredHistory (setFilter (lit "reviewed") st) ->
                item ∉ filteredHistory (setFilter (lit "pending") st)) /\
  (length (filteredHistory (setFilter (lit "reviewed") st))
   + length (filteredHistory (setFilter (lit "pending") st))
   <= length (history st))%nat.
Proof.
  unfold filteredHistory. simpl. split; [|split].
  - induction (history st) as [|x l IH]; [reflexivity|].
    rewrite filter_cons_True by exact I. rewrite IH. reflexivity.
  - intros item R P. apply list_elem_of_filter in R as [R _].
    apply list_elem_of_filter in P as [P _].
    rewrite shown_reviewed in R. rewrite shown_pending in P.
    apply bool_decide_unpack in R. apply bool_decide_unpack in P.
    rewrite R in P. discriminate P.
  - apply filter_disjoint_length. intros item R P.
    rewrite shown_reviewed in R. rewrite shown_pending in P.
    apply bool_decide_unpack in R. apply bool_decide_unpack in P.
    rewrite R in P. discriminate P.
Qed.

(** X7: Any other filter value selects by disease: the records listed are those
    whose disease is the value, in the order of the history.  The words
    ['reviewed'] and ['pending'] always select by status, whatever the
    diseases are called. *)
Theorem history_disease_view (f : jsstring) (st : State) :
  (f <> lit "all" -> f <> lit "reviewed" -> f <> lit "pending" ->
   filteredHistory (setFilter f st)
   = base.filter (fun item => disease item = f) (history st)) /\
  filteredHistory (setFilter (lit "reviewed") st)
    = base.filter (fun item => status item = lit "reviewed") (history st) /\
  filteredHistory (setFilter (lit "pending") st)
    = base.filter (fun item => status item = lit "pending_review")
                  (history st).
Proof.
  unfold filteredHistory. simpl. split; [|split].
  - intros A R P. apply list_filter_iff. intros item.
    rewrite shown_disease by assumption. apply bool_decide_spec.
  - apply list_filter_iff. intros item. rewrite shown_reviewed.
    apply bool_decide_spec.
  - apply list_filter_iff. intros item. rewrite shown_pending.
    apply bool_decide_spec.
Qed.




(** X9: The two ways of printing a prediction agree on 0 and on 1 and nowhere
    else: any other value is 'Positive' for [Results] and the form's result
    card, 'Negative' for the history and the case review. *)
Theorem prediction_labels_agree (prediction : value) :
  Results.predictionLabel prediction = predictionLabel prediction
  <-> prediction = VNum 0 \/ prediction = VNum 1.
Proof.
  unfold Results.predictionLabel, predictionLabel, strict_eq. split.
  - destruct (decide (prediction = VNum 0)) as [->|N0]; [auto|].
    destruct (decide (prediction = VNum 1)) as [->|N1]; [auto|].
    rewrite !bool_decide_eq_false_2 by assumption. discriminate.
  - intros [-> | ->]; reflexivity.
Qed.

End HistoryProps.

(** ** Printing a confidence *)

Section ConfidenceProps.






End ConfidenceProps.

(** ** Loading lists *)

Section LoaderProps.
Context `{Host}.

(** X11: The four list loaders lower their [loading] flag whatever happens, and
    a failed request leaves the list on display as it was; the chat makes
    no request without a room id, and the dashboard keeps both lists and
    the stats when its first request throws. *)
Theorem loaders_keep_lists_on_failure
    (h : outcome PatientHistory.Response) (hs : PatientHistory.State)
    (m : outcome ConsultationManager.ListResponse)
    (ms : ConsultationManager.State)
    (props : DoctorPatientChat.Props)
    (c : outcome DoctorPatientChat.MessagesResponse)
    (cs : DoctorPatientChat.State)
    (now : number) (d2 : outcome DoctorDashboard.CasesResponse)
    (ds : DoctorDashboard.State) :
  (PatientHistory.loading (PatientHistory.loadHistory h hs) = false /\
   (fails PatientHistory.success h ->
    PatientHistory.history (PatientHistory.loadHistory h hs)
    = PatientHistory.history hs)) /\
  (ConsultationManager.loading (ConsultationManager.loadConsultations m ms)
   = false /\
   (fails ConsultationManager.list_success m ->
    ConsultationManager.consultations
      (ConsultationManager.loadConsultations m ms)
    = ConsultationManager.consultations ms)) /\
  (DoctorPatientChat.loading
     (fst (DoctorPatientChat.loadChatMessages props c cs)) = false /\
   (fails DoctorPatientChat.msgs_success c ->
    DoctorPatientChat.messages
      (fst (DoctorPatientChat.loadChatMessages props c cs))
    = DoctorPatientChat.messages cs) /\
   (truthy (DoctorPatientChat.room_id props) = false ->
    DoctorPatientChat.loadChatMessages props c cs
    = (DoctorPatientChat.set_loading cs false, []))) /\
  (forall d1,
     DoctorDashboard.loading (DoctorDashboard.loadDashboardData now d1 d2 ds)
     = false) /\
  DoctorDashboard.consultations
    (DoctorDashboard.loadDashboardData now Rejected d2 ds)
    = DoctorDashboard.consultations ds /\
  DoctorDashboard.pendingCases
    (DoctorDashboard.loadDashboardData now Rejected d2 ds)
    = DoctorDashboard.pendingCases ds /\
  DoctorDashboard.stats (DoctorDashboard.loadDashboardData now Rejected d2 ds)
    = DoctorDashboard.stats ds.
Proof.
  split; [|split; [|split; [|split]]].
  - unfold PatientHistory.loadHistory.
    destruct h as [a|]; [destruct (PatientHistory.success a) eqn:S|];
      simpl; split; try reflexivity; intros F; try reflexivity; congruence.
  - unfold ConsultationManager.loadConsultations.
    destruct m as [a|];
      [destruct (ConsultationManager.list_success a) eqn:S|];
      simpl; split; try reflexivity; intros F; try reflexivity; congruence.
  - unfold DoctorPatientChat.loadChatMessages.
    destruct (truthy (DoctorPatientChat.room_id props));
      (destruct c as [a|];
       [destruct (DoctorPatientChat.msgs_success a) eqn:S|]);
      simpl; repeat split; try reflexivity; try discriminate;
      intros F; congruence.
  - intros d1. unfold DoctorDashboard.loadDashboardData.
    destruct d1 as [a|]; [destruct d2 as [b|]|]; reflexivity.
  - repeat split; reflexivity.
Qed.

End LoaderProps.

(** ** Login and Register *)

Section LoginProps.
Import Login.

(** X12: Whenever the parent learns of a login, by the form or after a
    registration, the same user has just been written to local storage.
    The form notifies the parent exactly when the answer reports success;
    after a failure nothing is stored, the credentials typed stay in the
    form and [loading] is lowered. *)
Theorem login_stores_then_notifies (r : outcome Response) (st : State)
    (userData : User) :
  stored_before_login (snd (handleSubmit r st)) /\
  stored_before_login (snd (handleRegistrationSuccess userData st)) /\
  ((exists u, OnLogin u ∈ snd (handleSubmit r st)) <->
   exists result, r = Resolved result /\ success result = true) /\
  (fails success r ->
   snd (handleSubmit r st) = [LoginUser (formData st)] /\
   formData (fst (handleSubmit r st)) = formData st /\
   loading (fst (handleSubmit r st)) = false).
Proof.
  unfold stored_before_login, handleSubmit. split; [|split; [|split]].
  - intros pre u post.
    destruct r as [result|]; [destruct (success result)|]; simpl;
      destruct pre as [|e1 [|e2 [|e3 [|e4 pre]]]]; simpl;
      intros [= ]; subst; try discriminate.
    exists [LoginUser (formData st)]. reflexivity.
  - intros pre u post. simpl.
    destruct pre as [|e1 [|e2 [|e3 pre]]]; simpl;
      intros [= ]; subst; try discriminate.
    exists []. reflexivity.
  - destruct r as [result|]; [destruct (success result) eqn:S|]; simpl;
      split.
    + intros _. exists result. auto.
    + intros _. exists (user result). do 2 apply list_elem_of_further.
      apply list_elem_of_here.
    + intros [u Hin]. no_member Hin.
    + intros (result' & [= <-] & S'). congruence.
    + intros [u Hin]. no_member Hin.
    + intros (result' & E & _). discriminate E.
  - destruct r as [result|]; simpl; [intros ->|intros _]; auto.
Qed.

End LoginProps.

Section RegisterProps.
Import Register.

Ltac key_ne :=
  let E := fresh in intros E; vm_compute in E; discriminate E.

Lemma get_insert_eq (m : gmap jsstring value) (k : jsstring) (v : value) :
  get (<[k := v]> m) k = v.
Proof. unfold get. rewrite lookup_insert_eq. reflexivity. Qed.

Lemma get_insert_ne (m : gmap jsstring value) (k k' : jsstring) (v : value) :
  k <> k' -> get (<[k := v]> m) k' = get m k'.
Proof. intros N. unfold get. rewrite lookup_insert_ne by exact N. reflexivity. Qed.

(** X13: The data posted carry [user_type] and [license_number] with the values
    of the form's [userType] and [licenseNumber], and every other key of the
    form as it is, the two camel-case keys and the password included; what
    was typed last into an input is what is posted for it. *)
Theorem registration_data_keys (formData : gmap jsstring value)
    (name v : jsstring) (st : State) :
  get (registrationData formData) (lit "user_type")
    = get formData (lit "userType") /\
  get (registrationData formData) (lit "license_number")
    = get formData (lit "licenseNumber") /\
  (forall k, k <> lit "user_type" -> k <> lit "license_number" ->
             registrationData formData !! k = formData !! k) /\
  (name <> lit "user_type" -> name <> lit "license_number" ->
   get (registrationData (Register.formData (handleChange name v st))) name
   = VStr v) /\
  get (registrationData
         (Register.formData (handleChange (lit "licenseNumber") v st)))
      (lit "license_number") = VStr v.
Proof.
  unfold registrationData. repeat split.
  - rewrite get_insert_ne by key_ne. apply get_insert_eq.
  - apply get_insert_eq.
  - intros k U L. rewrite !lookup_insert_ne by congruence. reflexivity.
  - intros U L. simpl. rewrite !get_insert_ne by congruence.
    apply get_insert_eq.
  - simpl. rewrite get_insert_eq. apply get_insert_eq.
Qed.

Lemma includes_successful_default :
  includes (lit "successful") failed_message = false.
Proof. vm_compute. reflexivity. Qed.

Lemma or_failed_truthy (text : option jsstring) :
  truthy_string (or_failed text) = true.
Proof.
  unfold or_failed. destruct text as [e|]; [|reflexivity].
  destruct (truthy_string e) eqn:E; [exact E|reflexivity].
Qed.

(** X14: After a submission there is always a banner.  It is green after a
    success.  After a failure it is red when the message is the fixed one,
    and for a text supplied by the server it is green exactly when that
    text contains 'successful'. *)
Theorem register_banner_colour (onRegistrationSuccess : bool)
    (userType : value) (r : post_outcome) (st : State) :
  let st' := fst (handleSubmit onRegistrationSuccess userType r st) in
  shownBanner st' <> NoBanner /\
  (forall data, r = Posted data -> success data = true ->
                shownBanner st' = Green) /\
  (forall text,
     r = Failed text \/
     (exists data, r = Posted data /\ success data = false /\
                   data_error data = text) ->
     match text with
     | Some e =>
         if truthy_string e
         then shownBanner st'
              = (if includes (lit "successful") e then Green else Red)
         else shownBanner st' = Red
     | None => shownBanner st' = Red
     end).
Proof.
  intros st'. subst st'. unfold handleSubmit, shownBanner.
  assert (F : forall text,
            (if truthy_string (or_failed text)
             then if includes (lit "successful") (or_failed text)
                  then Green else Red
             else NoBanner)
            = match text with
              | Some e => if truthy_string e
                          then (if includes (lit "successful") e
                                then Green else Red)
                          else Red
              | None => Red
              end).
  { intros text. rewrite or_failed_truthy. unfold or_failed.
    destruct text as [e|]; [destruct (truthy_string e)|];
      try reflexivity; rewrite includes_successful_default; reflexivity. }
  split; [|split].
  - destruct r as [data|text].
    + destruct (success data); [destruct onRegistrationSuccess, (user data)|];
        simpl; try discriminate.
      rewrite F. destruct (data_error data) as [e|];
        [destruct (truthy_string e), (includes (lit "successful") e)|];
        discriminate.
    + simpl. rewrite F. destruct text as [e|];
        [destruct (truthy_string e), (includes (lit "successful") e)|];
        discriminate.
  - intros data -> S. rewrite S.
    destruct onRegistrationSuccess, (user data); reflexivity.
  - intros text [-> | (data & -> & S & <-)].
    + simpl. rewrite F. destruct text as [e|];
        [destruct (truthy_string e)|]; reflexivity.
    + rewrite S. simpl. rewrite F. destruct (data_error data) as [e|];
        [destruct (truthy_string e)|]; reflexivity.
Qed.

(** X15: A successful registration clears the form, the password with it,
    unless the parent's callback takes over with the user of the answer;
    then, and after every failure, the form keeps what was typed. *)
Theorem register_form_after_submit (onRegistrationSuccess : bool)
    (userType : value) (r : post_outcome) (st : State) :
  let st' := fst (handleSubmit onRegistrationSuccess userType r st) in
  let out := snd (handleSubmit onRegistrationSuccess userType r st) in
  loading st' = false /\
  ((exists u, OnRegistrationSuccess u ∈ out) ->
   formData st' = formData st) /\
  (forall data, r = Posted data -> success data = true ->
     (forall u, OnRegistrationSuccess u ∉ out) ->
     formData st' = emptyForm userType /\
     get (formData st') (lit "password") = VStr []) /\
  ((forall data, r = Posted data -> success data = false) ->
   formData st' = formData st /\ out = [PostRegister (registrationData (formData st))]).
Proof.
  intros st' out. subst st' out. unfold handleSubmit.
  destruct r as [data|text]; simpl.
  - destruct (success data) eqn:S;
      [destruct onRegistrationSuccess, (user data) as [u|]|]; simpl;
      (split; [reflexivity|]); (split; [|split]);
      try (intros [u' Hin]; no_member Hin; fail);
      try (intros _; reflexivity);
      try (intros data' [= <-] S'; congruence);
      try (intros data' _ _ _; split; reflexivity);
      try (intros N; specialize (N data eq_refl); congruence);
      try (intros _; split; reflexivity).
    intros data' _ _ N. exfalso. apply (N u).
    apply list_elem_of_further, list_elem_of_here.
  - split; [reflexivity|]. split; [|split].
    + intros _. reflexivity.
    + intros data' E. discriminate E.
    + intros _. split; reflexivity.
Qed.

End RegisterProps.

(** ** DoctorDashboard and ConsultationManager: stats, buttons, flags *)

Section DashboardProps.
Context `{Host}.

Lemma filter_length_le {A} (P : A -> Prop) `{!forall x, Decision (P x)}
    (l : list A) : (length (base.filter P l) <= length l)%nat.
Proof.
  induction l as [|x l IH]; [reflexivity|].
  rewrite filter_cons. destruct (decide (P x)); simpl; lia.
Qed.

Lemma updateStats_totals (now : number) (l : list Consultation)
    (k : list DoctorDashboard.Case) :
  let s := DoctorDashboard.updateStats now (Some l) (Some k) in
  DoctorDashboard.totalPatients s = length l /\
  DoctorDashboard.pendingReviews s = length k /\
  (DoctorDashboard.todayAppointments s <= length l)%nat /\
  (DoctorDashboard.completedConsultations s <= length l)%nat.
Proof. simpl. auto using filter_length_le. Qed.

(** X16: After a load whose two answers report success the counters describe
    the lists on display: the totals are their lengths, and neither today's
    appointments nor the completed consultations exceed the total. *)
Theorem dashboard_load_counts_lists (now : number)
    (c : DoctorDashboard.ConsultationsResponse)
    (k : DoctorDashboard.CasesResponse) (st : DoctorDashboard.State) :
  DoctorDashboard.consultations_success c = true ->
  DoctorDashboard.cases_success k = true ->
  let st' :=
    DoctorDashboard.loadDashboardData now (Resolved c) (Resolved k) st in
  DoctorDashboard.stats st'
    = DoctorDashboard.updateStats now
        (Some (DoctorDashboard.consultations st'))
        (Some (DoctorDashboard.pendingCases st')) /\
  DoctorDashboard.totalPatients (DoctorDashboard.stats st')
    = length (DoctorDashboard.consultations st') /\
  DoctorDashboard.pendingReviews (DoctorDashboard.stats st')
    = length (DoctorDashboard.pendingCases st') /\
  (DoctorDashboard.todayAppointments (DoctorDashboard.stats st')
   <= length (DoctorDashboard.consultations st'))%nat /\
  (DoctorDashboard.completedConsultations (DoctorDashboard.stats st')
   <= length (DoctorDashboard.consultations st'))%nat.
Proof.
  intros C K st'. subst st'. unfold DoctorDashboard.loadDashboardData.
  rewrite C, K. simpl.
  destruct (DoctorDashboard.resp_consultations c) as [l|],
           (DoctorDashboard.resp_cases k) as [q|]; simpl;
    repeat split; auto using filter_length_le.
Qed.

Lemma patch_status_length (consultationId newStatus : value)
    (l : list Consultation) :
  length (patch_status consultationId newStatus l) = length l.
Proof. apply length_map. Qed.

(** X17: A successful status update recomputes the counters from the list of
    the render the handler closes over, patched: the total is the length of
    that list.  When that render is the current one, the counters describe
    the list on display after the update.  A failed update leaves the
    counters alone. *)
Theorem status_update_counters (snap st : DoctorDashboard.State)
    (consultationId newStatus : value) (now : number)
    (r : outcome UpdateResponse) :
  let st' := fst (DoctorDashboard.handleStatusUpdate snap consultationId
                    newStatus now r st) in
  (forall response, r = Resolved response ->
     update_success response = true ->
     DoctorDashboard.totalPatients (DoctorDashboard.stats st')
       = length (DoctorDashboard.consultations snap) /\
     DoctorDashboard.pendingReviews (DoctorDashboard.stats st')
       = length (DoctorDashboard.pendingCases snap) /\
     (DoctorDashboard.consultations snap = DoctorDashboard.consultations st ->
      DoctorDashboard.pendingCases snap = DoctorDashboard.pendingCases st ->
      DoctorDashboard.stats st'
      = DoctorDashboard.updateStats now
          (Some (DoctorDashboard.consultations st'))
          (Some (DoctorDashboard.pendingCases st')))) /\
  (fails update_success r ->
   DoctorDashboard.stats st' = DoctorDashboard.stats st) /\
  DoctorDashboard.pendingCases st' = DoctorDashboard.pendingCases st /\
  length (DoctorDashboard.consultations st')
    = length (DoctorDashboard.consultations st).
Proof.
  intros st'. subst st'. unfold DoctorDashboard.handleStatusUpdate.
  destruct r as [response|]; [destruct (update_success response) eqn:S|];
    simpl.
  - split; [|split; [|split]].
    + intros _ _ _. split; [apply patch_status_length|].
      split; [reflexivity|]. intros Ec Ek. rewrite Ec, Ek. reflexivity.
    + intros F. congruence.
    + reflexivity.
    + apply patch_status_length.
  - split; [|split; [|split]]; try reflexivity.
    intros response' [= <-] S'. congruence.
  - split; [|split; [|split]]; try reflexivity.
    intros response' E. discriminate E.
Qed.

End DashboardProps.

Section ButtonProps.





(** X20: Whatever the outcome of the manager's status update, the buttons of
    the consultation are enabled again afterwards, as are those of every
    consultation whose id has the same property key; the flags under other
    keys are not touched.  A falsy id changes nothing. *)
Theorem status_update_lowers_flag (consultationId newStatus : value)
    (r : outcome UpdateResponse) (st : ConsultationManager.State)
    (c : Consultation) :
  let st' := fst (ConsultationManager.handleStatusUpdate consultationId
                    newStatus r st) in
  (truthy consultationId = true ->
   ConsultationManager.propertyKey (id c)
   = ConsultationManager.propertyKey consultationId ->
   ConsultationManager.buttonsDisabled c st' = false) /\
  (forall k, k <> ConsultationManager.propertyKey consultationId ->
     ConsultationManager.updatingStatus st' !! k
     = ConsultationManager.updatingStatus st !! k) /\
  (truthy consultationId = false ->
   ConsultationManager.handleStatusUpdate consultationId newStatus r st
   = (st, [])).
Proof.
  intros st'. subst st'. unfold ConsultationManager.handleStatusUpdate,
    ConsultationManager.buttonsDisabled, ConsultationManager.set_updating.
  destruct (truthy consultationId); simpl; split; [|split| |split];
    try discriminate; try reflexivity.
  - intros _ ->.
    destruct r as [response|]; [destruct (update_success response)|];
      simpl; rewrite lookup_insert_eq; reflexivity.
  - intros k N.
    destruct r as [response|]; [destruct (update_success response)|];
      simpl; rewrite !lookup_insert_ne by congruence; reflexivity.
Qed.

End ButtonProps.

(** ** PatientDashboard: the session check on mount *)

Section InitializeProps.
Import PatientDashboard.
Context `{Host}.

(** X21: On mount the dashboard lowers [loading] in every case.  It logs the
    user out exactly when the session answer is not both successful and
    authenticated, or the check fails with status 401 or 404; it asks for
    the stats exactly when the session is valid.  A check that fails in any
    other way (no response, another status) is swallowed: no logout, no
    request for stats, and only [loading] changes. *)
Theorem initialize_logout_and_stats (now : number) (d : Draws)
    (s : session_outcome) (r : outcome StatsResponse) (st : State) :
  let st' := fst (initializeDashboard now d s r st) in
  let out := snd (initializeDashboard now d s r st) in
  loading st' = false /\
  (OnLogout ∈ out <->
   match s with
   | SessionAnswer a => session_success a = false \/ authenticated a = false
   | SessionError status => status = Some 401 \/ status = Some 404
   end) /\
  (FromStats GetPatientStats ∈ out <->
   exists a, s = SessionAnswer a /\ session_success a = true /\
             authenticated a = true) /\
  (forall status, s = SessionError status ->
     status <> Some 401 -> status <> Some 404 ->
     stats st' = stats st /\ currentResult st' = currentResult st /\
     activeTab st' = activeTab st /\ statsLoading st' = statsLoading st).
Proof.
  intros st' out. subst st' out. unfold initializeDashboard.
  destruct s as [a|status].
  - destruct (session_success a) eqn:S, (authenticated a) eqn:A; simpl.
    2-4: split; [reflexivity|]; split; [|split];
      [split; [auto|intros _; do 3 apply list_elem_of_further;
                    apply list_elem_of_here]
      |split; [intros In; no_member In
              |intros (a' & [= <-] & S' & A'); congruence]
      |intros status E; discriminate E].
    unfold loadPatientStats.
    destruct r as [result|]; [destruct (success result)|]; simpl;
      (split; [reflexivity|]); (split; [|split]);
      try (split; [intros In; no_member In|intros [N|N]; discriminate N]);
      try (split; [intros _; exists a; auto
                  |intros _; do 4 apply list_elem_of_further;
                   apply list_elem_of_here]);
      intros status E; discriminate E.
  - destruct (decide (status = Some 401)) as [E1|E1];
      [|destruct (decide (status = Some 404)) as [E4|E4]].
    + rewrite (bool_decide_eq_true_2 _ E1). simpl.
      split; [reflexivity|]. split; [|split].
      * split; [auto|]. intros _. do 4 apply list_elem_of_further.
        apply list_elem_of_here.
      * split; [intros In; no_member In|intros (a & E & _); discriminate E].
      * intros status' [= <-] N. contradiction.
    + rewrite (bool_decide_eq_true_2 _ E4), orb_true_r. simpl.
      split; [reflexivity|]. split; [|split].
      * split; [auto|]. intros _. do 4 apply list_elem_of_further.
        apply list_elem_of_here.
      * split; [intros In; no_member In|intros (a & E & _); discriminate E].
      * intros status' [= <-] _ N. contradiction.
    + rewrite (bool_decide_eq_false_2 _ E1), (bool_decide_eq_false_2 _ E4).
      simpl. split; [reflexivity|]. split; [|split].
      * split; [intros In; no_member In|intros [N|N]; contradiction].
      * split; [intros In; no_member In|intros (a & E & _); discriminate E].
      * intros status' _ _ _. repeat split; reflexivity.
Qed.

End InitializeProps.

(** ** PredictionForm: selecting, typing, submitting, loading *)

Section PredictionFormMore.
Import PredictionForm.

(** X22: After a submission [loading] is lowered and there is either a result
    or an error message, never both and never neither; the values of the
    form, the selection and the catalog are as before.  The parent's
    callback gets the very result that is stored, and gets it whenever
    there is one and the callback was passed. *)
Theorem submit_result_or_error (onResult : bool) (r : outcome Response)
    (st : State) :
  let st' := fst (handleSubmit onResult r st) in
  let out := snd (handleSubmit onResult r st) in
  loading st' = false /\
  (is_Some (predictionResult st') <-> error st' = None) /\
  formData st' = formData st /\
  selectedDisease st' = selectedDisease st /\
  diseaseInfo st' = diseaseInfo st /\
  (forall p, OnResult p ∈ out -> predictionResult st' = Some p) /\
  (onResult = true -> forall p, predictionResult st' = Some p ->
                                OnResult p ∈ out).
Proof.
  intros st' out. subst st' out. unfold handleSubmit.
  destruct (diseaseInfo st !! selectedDisease st) as [d|]; simpl.
  - destruct r as [result|]; simpl.
    + destruct (success result), (resp_prediction result) as [p|], onResult;
        simpl; repeat split; try reflexivity; try discriminate;
        try (intros [? E]; discriminate E);
        try (intros _; eexists; reflexivity);
        try (intros p' In; apply elem_of_cons in In as [In|In];
             [discriminate In|]; apply list_elem_of_singleton in In;
             injection In as ->; reflexivity);
        try (intros _ p' [= <-]; apply list_elem_of_further,
                                  list_elem_of_here);
        try (intros p' In; no_member In).
    + repeat split; try reflexivity; try discriminate.
      * intros [? E]. discriminate E.
      * intros p In. no_member In.
  - repeat split; try reflexivity; try discriminate.
    + intros [? E]. discriminate E.
    + intros p In. no_member In.
Qed.

(** X23: Choosing the disease that is already selected changes nothing, the
    values typed included; choosing another one selects it and clears the
    values, the result and the error, with the catalog untouched. *)
Theorem disease_select_step (disease : jsstring) (st : State) :
  resetDeps st = Some (selectedDisease st) ->
  (disease = selectedDisease st -> handleDiseaseSelect disease st = st) /\
  (disease <> selectedDisease st ->
   selectedDisease (handleDiseaseSelect disease st) = disease /\
   formData (handleDiseaseSelect disease st) = ∅ /\
   predictionResult (handleDiseaseSelect disease st) = None /\
   error (handleDiseaseSelect disease st) = None /\
   diseaseInfo (handleDiseaseSelect disease st) = diseaseInfo st).
Proof.
  intros D. split.
  - intros ->. unfold handleDiseaseSelect. rewrite commit_same by exact D.
    destruct st; reflexivity.
  - intros N. unfold handleDiseaseSelect, commit. simpl.
    rewrite bool_decide_eq_false_2 by (rewrite D; congruence).
    repeat split; reflexivity.
Qed.

(** X24: What is typed into a field is what the next submission sends for it:
    the feature of every field with that name is the number read from the
    new value, and the features of the other fields are as they would have
    been. *)
Theorem typed_value_is_submitted (fieldName : jsstring) (v : formval)
    (onResult : bool) (r : outcome Response) (st : State)
    (disease : Disease) :
  resetDeps st = Some (selectedDisease st) ->
  diseaseInfo st !! selectedDisease st = Some disease ->
  exists fs rest,
    snd (handleSubmit onResult r (handleInputChange fieldName v st))
      = PredictDisease (selectedDisease st) fs :: rest /\
    forall i field, fields disease !! i = Some field ->
      fs !! i = Some (if decide (name field = fieldName) then numValue v
                      else numValue (formValue (formData st) field)).
Proof.
  intros D C. rewrite input_keeps_selected by exact D.
  set (st1 := {| selectedDisease := selectedDisease st;
                 formData := <[fieldName := v]> (formData st);
                 loading := loading st; diseaseInfo := diseaseInfo st;
                 isLoadingInfo := isLoadingInfo st; error := error st;
                 predictionResult := predictionResult st;
                 resetDeps := resetDeps st |}).
  destruct (submit_sends_features onResult r st1 disease C)
    as (rest & R & _).
  exists (features disease (formData st1)), rest. split; [exact R|].
  intros i field F. unfold features. rewrite list_lookup_fmap, F. simpl.
  f_equal. unfold formValue.
  destruct (decide (name field = fieldName)) as [->|N].
  - rewrite lookup_insert_eq. reflexivity.
  - rewrite lookup_insert_ne by congruence. reflexivity.
Qed.

Lemma lookup_dom_nonempty (m : gmap jsstring Disease) (k : jsstring)
    (d : Disease) : m !! k = Some d -> dom m <> ∅.
Proof.
  intros L E. assert (In : k ∈ dom m) by (apply elem_of_dom; eauto).
  rewrite E in In. set_solver.
Qed.

Lemma render_form (st : State) (d : Disease) :
  isLoadingInfo st = false ->
  diseaseInfo st !! selectedDisease st = Some d ->
  render st = FormScreen d.
Proof.
  intros L C. unfold render. rewrite L, C.
  destruct (error st) as [e|]; [|reflexivity].
  rewrite (bool_decide_eq_false_2 _ (lookup_dom_nonempty _ _ _ C)).
  rewrite andb_false_r. reflexivity.
Qed.

(** X25: Loading the catalog always ends the spinner.  A failed load with no
    catalog yet shows the retry panel with the message of the failure; a
    successful load, the first or a retry, clears the error, stores the
    catalog and shows the form of the selected disease when the catalog
    has it. *)
Theorem catalog_load_screens (r : outcome InfoResponse) (st : State) :
  isLoadingInfo (loadDiseaseInfo r st) = false /\
  (fails info_success r -> diseaseInfo st = ∅ ->
   exists message, render (loadDiseaseInfo r st) = RetryScreen message /\
                   error (loadDiseaseInfo r st) = Some message) /\
  (forall result, r = Resolved result -> info_success result = true ->
     error (loadDiseaseInfo r st) = None /\
     diseaseInfo (loadDiseaseInfo r st) = diseases result /\
     render (loadDiseaseInfo r st)
     = match diseases result !! selectedDisease st with
       | Some d => FormScreen d
       | None => MissingDiseaseScreen
       end).
Proof.
  unfold loadDiseaseInfo. split; [|split].
  - destruct r as [result|]; [destruct (info_success result)|]; reflexivity.
  - intros F E.
    destruct r as [result|]; simpl in F; [rewrite F|]; eexists;
      unfold render; simpl; rewrite E, dom_empty_L;
      rewrite bool_decide_eq_true_2 by reflexivity; split; reflexivity.
  - intros result -> S. rewrite S. repeat split.
Qed.

(** X26: A prediction that fails puts its message above the form; it never
    brings up the retry panel of the catalog, and the form of the selected
    disease stays on screen with its values. *)
Theorem failed_prediction_keeps_form_on_screen (onResult : bool)
    (r : outcome Response) (st : State) (d : Disease) :
  isLoadingInfo st = false ->
  diseaseInfo st !! selectedDisease st = Some d ->
  render (fst (handleSubmit onResult r st)) = FormScreen d /\
  formData (fst (handleSubmit onResult r st)) = formData st /\
  (fails (fun result => success result
                        && bool_decide (is_Some (resp_prediction result))) r ->
   exists message, error (fst (handleSubmit onResult r st)) = Some message /\
                   truthy_string message = true).
Proof.
  intros L C.
  assert (K : isLoadingInfo (fst (handleSubmit onResult r st)) = false /\
              diseaseInfo (fst (handleSubmit onResult r st)) = diseaseInfo st /\
              selectedDisease (fst (handleSubmit onResult r st))
              = selectedDisease st /\
              formData (fst (handleSubmit onResult r st)) = formData st).
  { unfold handleSubmit. rewrite C.
    destruct r as [result|];
      [destruct (success result), (resp_prediction result)|];
      simpl; auto. }
  destruct K as (K1 & K2 & K3 & K4). split; [|split; [exact K4|]].
  - apply render_form; [exact K1|]. rewrite K2, K3. exact C.
  - unfold handleSubmit. rewrite C. intros F.
    destruct r as [result|]; simpl in *.
    + destruct (success result), (resp_prediction result) as [p|];
        simpl in *; try discriminate F;
        (destruct (resp_error result) as [e|];
         [destruct (truthy_string e) eqn:T|]); eexists; split;
        try reflexivity; exact T.
    + eexists. split; reflexivity.
Qed.

End PredictionFormMore.

(** ** DoctorPatientChat: indicators and what is sent *)

Section TrimShape.

Lemma dropWhile_no_lead (l : jsstring) : no_lead (dropWhile isWhiteSpace l).
Proof.
  induction l as [|c l IH]; [exact I|]. simpl.
  destruct (isWhiteSpace c) eqn:E; [exact IH|exact E].
Qed.

Lemma dropWhile_fixed (l : jsstring) :
  no_lead l -> dropWhile isWhiteSpace l = l.
Proof. destruct l as [|c l]; [reflexivity|]. simpl. intros ->. reflexivity. Qed.

Lemma dropWhile_suffix (l : jsstring) :
  exists w, l = w ++ dropWhile isWhiteSpace l.
Proof.
  induction l as [|c l [w IH]]; [exists []; reflexivity|]. simpl.
  destruct (isWhiteSpace c); [|exists []; reflexivity].
  exists (c :: w). simpl. rewrite <- IH. reflexivity.
Qed.

Lemma no_lead_prefix (u w : jsstring) :
  u <> [] -> no_lead (u ++ w) -> no_lead u.
Proof. destruct u as [|c u]; [contradiction|]. intros _ L. exact L. Qed.

Lemma trimEnd_no_lead (t : jsstring) : no_lead t -> no_lead (trimEnd t).
Proof.
  intros L. unfold trimEnd.
  destruct (dropWhile_suffix (rev t)) as [w E].
  apply (f_equal (@rev N)) in E. rewrite rev_involutive, rev_app_distr in E.
  destruct (rev (dropWhile isWhiteSpace (rev t))) as [|c u] eqn:U;
    [exact I|].
  rewrite E in L. exact L.
Qed.

Lemma trim_shape (s : jsstring) :
  no_lead (trim s) /\ no_lead (rev (trim s)).
Proof.
  unfold trim. split.
  - apply trimEnd_no_lead, dropWhile_no_lead.
  - unfold trimEnd. rewrite rev_involutive. apply dropWhile_no_lead.
Qed.

Lemma trim_fixed (s : jsstring) :
  no_lead s -> no_lead (rev s) -> trim s = s.
Proof.
  intros L R. unfold trim, trimStart, trimEnd.
  rewrite (dropWhile_fixed s L), (dropWhile_fixed (rev s) R).
  apply rev_involutive.
Qed.

Lemma trim_idempotent (s : jsstring) : trim (trim s) = trim s.
Proof. destruct (trim_shape s) as [L R]. apply trim_fixed; assumption. Qed.

Lemma no_lead_head (l : jsstring) (c : N) :
  no_lead l -> head l = Some c -> isWhiteSpace c = false.
Proof. destruct l as [|x l]; [discriminate|]. intros L [= <-]. exact L. Qed.

Lemma head_rev {A} (l : list A) : head (rev l) = last l.
Proof.
  induction l as [|x l _] using rev_ind; [reflexivity|].
  rewrite rev_app_distr, last_snoc. reflexivity.
Qed.

End TrimShape.

Section ChatMore.
Import DoctorPatientChat.
Variable props : Props.

(** X27: Every message the form sends is the trimmed input: it is not empty, it
    neither starts nor ends with white space, and trimming it again changes
    nothing; it goes to the room of the consultation with kind 'text' and
    no file. *)
Theorem sent_text_is_trimmed (r : outcome Response) (st : State)
    (room : value) (text kind : jsstring) (url : value) :
  SendMessage room text kind url ∈ snd (handleSendMessage props r st) ->
  text = trim (newMessage st) /\ text <> [] /\ trim text = text /\
  (forall c, head text = Some c -> isWhiteSpace c = false) /\
  (forall c, last text = Some c -> isWhiteSpace c = false) /\
  room = room_id props /\ truthy room = true /\
  kind = lit "text" /\ url = VUndefined.
Proof.
  unfold handleSendMessage.
  destruct (truthy_string (trim (newMessage st))) eqn:T;
    [|intros In; simpl in In; no_member In].
  destruct (truthy (room_id props)) eqn:R;
    [|intros In; simpl in In; no_member In].
  simpl. intros In.
  assert (E : SendMessage room text kind url
              = SendMessage (room_id props) (trim (newMessage st))
                            (lit "text") VUndefined).
  { destruct r as [response|]; [destruct (success response)|]; simpl in In;
      apply elem_of_cons in In as [In|In]; try exact In;
      try (inversion In; fail).
    destruct (socket st && truthy (room_id props)); no_member In. }
  injection E as -> -> -> ->.
  destruct (trim_shape (newMessage st)) as [L Rv].
  repeat split; try reflexivity.
  - intros N. rewrite N in T. discriminate T.
  - apply trim_idempotent.
  - intros c Hd. exact (no_lead_head _ _ L Hd).
  - intros c La. rewrite <- head_rev in La. exact (no_lead_head _ _ Rv La).
  - exact R.
Qed.

Lemma run_app (es es' : list event) (st : State) :
  run props (es ++ es') st = run props es' (run props es st).
Proof. unfold run. apply fold_left_app. Qed.

Lemma step_onlineUsers (e : event) (st : State) :
  onlineUsers (fst (step props e st)) = onlineUsers st ++ joined [e].
Proof.
  destruct e; unfold joined; simpl; try (rewrite app_nil_r);
    try reflexivity.
  - unfold on_user_typing. destruct (strict_ne _ _); reflexivity.
  - unfold loadChatMessages.
    destruct (truthy (room_id props)); simpl;
      [destruct r as [a|]; [destruct (msgs_success a)|]|]; reflexivity.
  - unfold handleSendMessage. destruct (_ || _); [reflexivity|].
    destruct r as [a|]; [destruct (success a)|]; reflexivity.
  - unfold handleFileUpload. destruct file; [|reflexivity].
    destruct (negb _); [reflexivity|].
    destruct r as [a|]; [destruct (upload_success a)|]; reflexivity.
  - unfold handleStartVideoCall.
    destruct r as [a|]; [destruct (call_success a)|]; reflexivity.
Qed.

(** X28: The online list is the list at mount followed by the id of every
    [user_joined] event, in order and with repetitions: it never shrinks,
    an id that joins twice is counted twice, and once the header shows
    'Online' it keeps showing it. *)
Theorem online_list_only_grows (es : list event) (st : State) :
  onlineUsers (run props es st) = onlineUsers st ++ joined es /\
  length (onlineUsers (run props es st))
    = (length (onlineUsers st) + length (joined es))%nat /\
  (shownOnline st = true -> shownOnline (run props es st) = true).
Proof.
  assert (G : onlineUsers (run props es st) = onlineUsers st ++ joined es).
  { revert st. induction es as [|e es IH]; intros st;
      [simpl; rewrite app_nil_r; reflexivity|].
    change (run props (e :: es) st)
      with (run props es (fst (step props e st))).
    rewrite IH, step_onlineUsers, <- app_assoc. f_equal.
    unfold joined. simpl. destruct e; reflexivity. }
  split; [exact G|]. split.
  - rewrite G. apply length_app.
  - unfold shownOnline. rewrite G, length_app. intros S.
    apply Nat.ltb_lt in S. apply Nat.ltb_lt. lia.
Qed.

Lemma filter_user_others (uid uid' : value) (l : list TypingData) :
  uid <> uid' ->
  base.filter (fun u => user_id u = uid) (others uid' l)
  = base.filter (fun u => user_id u = uid) l.
Proof.
  intros N. unfold others. rewrite list_filter_filter.
  apply list_filter_iff. intros u. split; [tauto|].
  intros E. split; [exact E|congruence].
Qed.

Lemma filter_user_update (uid : value) (d : TypingData)
    (l : list TypingData) :
  base.filter (fun u => user_id u = uid) (typing_update d l)
  = if decide (user_id d = uid)
    then (if truthy (typing d) then [d] else [])
    else base.filter (fun u => user_id u = uid) l.
Proof.
  rewrite typing_update_others.
  destruct (decide (user_id d = uid)) as [<-|N].
  - destruct (truthy (typing d)).
    + rewrite filter_app, filter_same_others, filter_cons_True by reflexivity.
      reflexivity.
    + apply filter_same_others.
  - destruct (truthy (typing d)).
    + rewrite filter_app, filter_user_others by congruence.
      rewrite filter_cons_False by exact N. apply app_nil_r.
    + apply filter_user_others. congruence.
Qed.

(** X29: After any run of typing events from an empty list, the entry of a
    remote user is decided by that user's last event alone: its payload is
    there when the event said typing, and nothing is there when it said
    not typing or when the user sent no event. *)
Theorem typing_follows_last_event (ds : list TypingData) (st : State)
    (uid : value) :
  typingUsers st = [] -> uid <> local_user_id props ->
  base.filter (fun u => user_id u = uid)
              (typingUsers (run props (UserTyping <$> ds) st))
  = match last_event_of uid ds with
    | Some d => if truthy (typing d) then [d] else []
    | None => []
    end.
Proof.
  intros E N. induction ds as [|d ds IH] using rev_ind.
  - simpl. rewrite E. reflexivity.
  - rewrite fmap_app, run_app. simpl.
    unfold last_event_of. rewrite filter_app.
    unfold on_user_typing.
    destruct (strict_ne (user_id d) (local_user_id props)) eqn:L.
    + simpl. rewrite filter_user_update.
      destruct (decide (user_id d = uid)) as [U|U].
      * rewrite filter_cons_True by exact U.
        rewrite filter_nil, last_snoc. reflexivity.
      * rewrite filter_cons_False by exact U.
        rewrite filter_nil, app_nil_r. exact IH.
    + assert (U : user_id d <> uid).
      { intros U. rewrite U in L.
        apply strict_ne_spec in N. rewrite N in L. discriminate L. }
      rewrite filter_cons_False by exact U.
      rewrite filter_nil, app_nil_r. exact IH.
Qed.

(** X30: Sharing a file never touches the state of the chat.  The follow-up
    message is sent only after an upload that reported success, as a
    message of kind 'file' with the address the upload returned; without a
    file or a room nothing is requested at all. *)
Theorem file_upload_effects (file : option jsstring)
    (r : outcome UploadResponse) (st : State) :
  fst (handleFileUpload props file r st) = st /\
  (file = None \/ truthy (room_id props) = false ->
   snd (handleFileUpload props file r st) = []) /\
  (forall room text kind url,
     SendMessage room text kind url ∈ snd (handleFileUpload props file r st) ->
     exists f uploadResponse,
       file = Some f /\ r = Resolved uploadResponse /\
       upload_success uploadResponse = true /\
       kind = lit "file" /\ url = upload_url uploadResponse /\
       room = room_id props /\
       snd (handleFileUpload props file r st)
       = [UploadChatFile f (room_id props);
          SendMessage room text kind url]).
Proof.
  unfold handleFileUpload. split; [|split].
  - destruct file; [|reflexivity]. destruct (negb _); [reflexivity|].
    destruct r as [a|]; [destruct (upload_success a)|]; reflexivity.
  - intros [-> | R]; [reflexivity|]. rewrite R.
    destruct file; reflexivity.
  - intros room text kind url In.
    destruct file as [f|]; [|no_member In].
    destruct (negb _); [no_member In|].
    destruct r as [a|]; [destruct (upload_success a) eqn:S|];
      simpl in In.
    + apply elem_of_cons in In as [In|In]; [discriminate In|].
      apply list_elem_of_singleton in In. injection In as -> -> -> ->.
      exists f, a. repeat split; auto.
    + no_member In.
    + no_member In.
Qed.

End ChatMore.

(** ** DoctorDashboard: how an update moves the counters *)

Section CounterProps.
Context `{Host}.

Lemma today_after_patch (today : jsstring) (consultationId newStatus : value)
    (l : list Consultation) :
  length (base.filter
            (fun c => Is_true (DoctorDashboard.requested_today today c))
            (patch_status consultationId newStatus l))
  = length (base.filter
              (fun c => Is_true (DoctorDashboard.requested_today today c)) l).
Proof.
  induction l as [|c l IH]; [reflexivity|].
  unfold patch_status in *. simpl. rewrite !filter_cons.
  assert (E : DoctorDashboard.requested_today today
                (if strict_eq (id c) consultationId
                 then with_status c newStatus else c)
              = DoctorDashboard.requested_today today c)
    by (destruct (strict_eq _ _); reflexivity).
  rewrite E. destruct (decide _); simpl; rewrite IH; reflexivity.
Qed.

Lemma filter_cons_length {A} (P : A -> Prop) `{!forall x, Decision (P x)}
    (x : A) (l : list A) :
  length (base.filter P (x :: l))
  = ((if decide (P x) then 1 else 0) + length (base.filter P l))%nat.
Proof. rewrite filter_cons. destruct (decide (P x)); reflexivity. Qed.

Lemma is_completed_spec (c : Consultation) :
  Is_true (DoctorDashboard.is_completed c)
  <-> status c = VStr (lit "completed").
Proof.
  unfold DoctorDashboard.is_completed, strict_eq. apply bool_decide_spec.
Qed.

Lemma patched_status (consultationId newStatus : value) (c : Consultation) :
  status (if strict_eq (id c) consultationId
          then with_status c newStatus else c)
  = if decide (id c = consultationId) then newStatus else status c.
Proof.
  unfold strict_eq. destruct (decide (id c = consultationId)) as [M|M].
  - rewrite (bool_decide_eq_true_2 _ M). reflexivity.
  - rewrite (bool_decide_eq_false_2 _ M). reflexivity.
Qed.

Lemma completed_after_patch (consultationId : value)
    (l : list Consultation) :
  length (base.filter
            (fun c => Is_true (DoctorDashboard.is_completed c))
            (patch_status consultationId (VStr (lit "completed")) l))
  = (length (base.filter
               (fun c => Is_true (DoctorDashboard.is_completed c)) l)
     + length (base.filter
                 (fun c => id c = consultationId /\
                           status c <> VStr (lit "completed")) l))%nat.
Proof.
  induction l as [|c l IH]; [reflexivity|].
  unfold patch_status in *. simpl map.
  rewrite !filter_cons_length, IH.
  pose proof (patched_status consultationId (VStr (lit "completed")) c) as S.
  repeat case_decide;
    repeat match goal with
      | X : Is_true (DoctorDashboard.is_completed _) |- _ =>
          apply is_completed_spec in X
      | X : ~ Is_true (DoctorDashboard.is_completed _) |- _ =>
          rewrite is_completed_spec in X
      end;
    try lia; exfalso; try tauto; try congruence.
Qed.

(** X18: No status update changes the total or today's appointments.  Marking a
    consultation completed raises the count of completed consultations by
    the number of records with that id that were not completed yet, so
    doing it again adds nothing. *)
Theorem status_update_moves_counters (now : number)
    (consultationId newStatus : value) (l : list Consultation)
    (k : option (list DoctorDashboard.Case)) :
  let before := DoctorDashboard.updateStats now (Some l) k in
  let after s :=
    DoctorDashboard.updateStats now
      (Some (patch_status consultationId s l)) k in
  DoctorDashboard.totalPatients (after newStatus)
    = DoctorDashboard.totalPatients before /\
  DoctorDashboard.todayAppointments (after newStatus)
    = DoctorDashboard.todayAppointments before /\
  DoctorDashboard.pendingReviews (after newStatus)
    = DoctorDashboard.pendingReviews before /\
  DoctorDashboard.completedConsultations (after (VStr (lit "completed")))
    = (DoctorDashboard.completedConsultations before
       + length (base.filter
                   (fun c => id c = consultationId /\
                             status c <> VStr (lit "completed")) l))%nat /\
  DoctorDashboard.updateStats now
    (Some (patch_status consultationId (VStr (lit "completed"))
             (patch_status consultationId (VStr (lit "completed")) l))) k
    = after (VStr (lit "completed")).
Proof.
  intros before after. subst before after. simpl.
  split; [apply patch_status_length|].
  split; [apply today_after_patch|].
  split; [reflexivity|].
  split; [apply completed_after_patch|].
  assert (I : patch_status consultationId (VStr (lit "completed"))
                (patch_status consultationId (VStr (lit "completed")) l)
              = patch_status consultationId (VStr (lit "completed")) l).
  { unfold patch_status. rewrite map_map. apply map_ext. intros c.
    destruct (strict_eq (id c) consultationId) eqn:E; simpl; rewrite E;
      reflexivity. }
  rewrite I. reflexivity.
Qed.

End CounterProps.

(** ** The further properties on concrete inputs *)

Section FurtherExamples.

Lemma updateItem_stores_witness :
  (0 < length (CaseReview.items CaseReview.Recommendations
                 (CaseReview.reviewForm CaseReview.initial)))%nat /\
  exists st',
    CaseReview.updateItem CaseReview.Recommendations 0 (lit "rest")
                          CaseReview.initial = Some st' /\
    CaseReview.items CaseReview.Recommendations (CaseReview.reviewForm st')
      !! 0%nat = Some (lit "rest").
Proof.
  split; [simpl; lia|].
  destruct (updateItem_stores CaseReview.Recommendations 0 (lit "rest")
              CaseReview.initial) as (st' & E & L & _); [simpl; lia|].
  exists st'. split; [exact E|exact L].
Defined.

Lemma dashboard_load_counts_lists_witness :
  DoctorDashboard.totalPatients
    (DoctorDashboard.stats
       (DoctorDashboard.loadDashboardData (H := epoch_day_host) (of_Z 0)
          (Resolved one_consultation) (Resolved no_cases)
          DoctorDashboard.initial))
  = length (DoctorDashboard.consultations
              (DoctorDashboard.loadDashboardData (H := epoch_day_host)
                 (of_Z 0) (Resolved one_consultation) (Resolved no_cases)
                 DoctorDashboard.initial)).
Proof.
  destruct (dashboard_load_counts_lists (H := epoch_day_host) (of_Z 0)
              one_consultation no_cases DoctorDashboard.initial
              eq_refl eq_refl) as (_ & T & _).
  exact T.
Defined.

Lemma disease_select_step_witness :
  PredictionForm.resetDeps (anemia_form (lit "13.5"))
    = Some (PredictionForm.selectedDisease (anemia_form (lit "13.5"))) /\
  PredictionForm.formData
    (PredictionForm.handleDiseaseSelect (lit "diabetes")
       (anemia_form (lit "13.5"))) = ∅.
Proof.
  split; [reflexivity|].
  destruct (disease_select_step (lit "diabetes") (anemia_form (lit "13.5"))
              eq_refl) as [_ Other].
  destruct Other as (_ & Empty & _); [discriminate|exact Empty].
Defined.

Lemma typed_value_is_submitted_witness :
  exists fs rest,
    snd (PredictionForm.handleSubmit true Rejected
           (PredictionForm.handleInputChange (lit "hemoglobin")
              (PredictionForm.FStr (lit "9.5")) (anemia_form (lit "13.5"))))
    = PredictionForm.PredictDisease (lit "anemia") fs :: rest /\
    fs !! 0%nat = Some (PredictionForm.numValue
                          (PredictionForm.FStr (lit "9.5"))).
Proof.
  destruct (typed_value_is_submitted (lit "hemoglobin")
              (PredictionForm.FStr (lit "9.5")) true Rejected
              (anemia_form (lit "13.5")) anemia eq_refl eq_refl)
    as (fs & rest & E & F).
  exists fs, rest. split; [exact E|].
  exact (F 0%nat hemoglobin eq_refl).
Defined.

Lemma failed_prediction_keeps_form_on_screen_witness :
  PredictionForm.render
    (fst (PredictionForm.handleSubmit true Rejected
            (anemia_form (lit "13.5"))))
  = PredictionForm.FormScreen anemia.
Proof.
  destruct (failed_prediction_keeps_form_on_screen true Rejected
              (anemia_form (lit "13.5")) anemia eq_refl eq_refl) as [R _].
  exact R.
Defined.

Lemma sent_text_is_trimmed_witness :
  DoctorPatientChat.SendMessage (VStr (lit "room-1")) (lit "ok") (lit "text")
                                VUndefined
    ∈ snd (DoctorPatientChat.handleSendMessage room1
             (Resolved {| DoctorPatientChat.success := true |})
             (DoctorPatientChat.set_newMessage DoctorPatientChat.initial
                (lit " ok "))) /\
  trim (lit "ok") = lit "ok".
Proof.
  assert (In : DoctorPatientChat.SendMessage (VStr (lit "room-1")) (lit "ok")
                 (lit "text") VUndefined
               ∈ snd (DoctorPatientChat.handleSendMessage room1
                        (Resolved {| DoctorPatientChat.success := true |})
                        (DoctorPatientChat.set_newMessage
                           DoctorPatientChat.initial (lit " ok "))))
    by apply list_elem_of_here.
  split; [exact In|].
  destruct (sent_text_is_trimmed room1 _ _ _ _ _ _ In) as (_ & _ & T & _).
  exact T.
Defined.

Lemma typing_follows_last_event_witness :
  base.filter (fun u => DoctorPatientChat.user_id u = VNum 2)
    (DoctorPatientChat.typingUsers
       (DoctorPatientChat.run room1
          (DoctorPatientChat.UserTyping
             <$> [typing_event 2 true; typing_event 3 true; typing_event 2 false])
          DoctorPatientChat.initial)) = [].
Proof.
  apply (typing_follows_last_event room1
           [typing_event 2 true; typing_event 3 true; typing_event 2 false]
           DoctorPatientChat.initial (VNum 2)); [reflexivity|discriminate].
Defined.

End FurtherExamples.
